(** * Sistema de Controle de Materiais: the in-memory material registry,
    the conference (scan) operation and the mock login

    A shallow embedding of
      - [src/unnamed/part_005]                 (types/material.ts)
      - [src/frontend/src/hooks/useMaterials.ts] (the zustand store of materials)
      - [src/frontend/src/hooks/useAuth.ts]      (the zustand store of the session)
      - [src/unnamed/part_006]                 (pages/Materiais.tsx, the form handlers)

    The stores are modelled by explicit state passing: an action of the
    store is a function from the state before the call to the state after
    it.  What the source reads from the outside world ([Date.now()],
    [new Date().toISOString()], [Math.random()]) is an explicit argument.

    JavaScript strings are compared with [===], that is by content; they
    are modelled by [string] and [String.eqb]. *)

From Stdlib Require Import String Ascii List Bool NArith Lia.
From stdpp Require Import base list strings pretty.

Local Open Scope string_scope.
Local Open Scope list_scope.

(** ** types/material.ts *)

(** [status: 'nao_conferido' | 'conferido_correto' | 'conferido_outro_setor'] *)
Inductive Status : Type :=
  | nao_conferido
  | conferido_correto
  | conferido_outro_setor.

#[global] Instance Status_eq_dec : EqDecision Status.
Proof. solve_decision. Defined.

(** The object under the optional key [ultimaConferencia]. *)
Record Conferencia : Type := mkConferencia {
  data : string;
  setorEncontrado : string;
  salaEncontrada : string
}.

#[global] Instance Conferencia_eq_dec : EqDecision Conferencia.
Proof. solve_decision. Defined.

(** [interface Material].  The optional key [ultimaConferencia?] is an
    [option]: [None] is the key absent (or [undefined]). *)
Record Material : Type := mkMaterial {
  id : string;
  nome : string;
  bmp : string;
  setor : string;
  sala : string;
  responsavel : string;
  qrCode : string;
  status : Status;
  ultimaConferencia : option Conferencia;
  dataCadastro : string
}.

#[global] Instance Material_eq_dec : EqDecision Material.
Proof. solve_decision. Defined.

(** [interface Setor] *)
Module Setor.
Record t : Type := mk {
  id : string;
  nome : string;
  salas : list string
}.
End Setor.

(** [Omit<Material, 'id' | 'qrCode' | 'dataCadastro'>], the argument of
    [addMaterial]: every key of [Material] but the three omitted ones, so
    [status] is required and [ultimaConferencia] is optional. *)
Record MaterialData : Type := mkMaterialData {
  d_nome : string;
  d_bmp : string;
  d_setor : string;
  d_sala : string;
  d_responsavel : string;
  d_status : Status;
  d_ultimaConferencia : option Conferencia
}.

(** [Partial<Material>], the argument of [updateMaterial]: every key of
    [Material] is optional.  [None] is a key that the object does not
    have.  For [ultimaConferencia], whose type admits [undefined], the key
    can be present and hold [undefined]: that is [Some None]. *)
Record MaterialUpdates : Type := mkMaterialUpdates {
  u_id : option string;
  u_nome : option string;
  u_bmp : option string;
  u_setor : option string;
  u_sala : option string;
  u_responsavel : option string;
  u_qrCode : option string;
  u_status : option Status;
  u_ultimaConferencia : option (option Conferencia);
  u_dataCadastro : option string
}.

(** The object with no key at all, [{}]. *)
Definition no_updates : MaterialUpdates :=
  mkMaterialUpdates None None None None None None None None None None.

(** ** hooks/useMaterials.ts *)

(** The data part of [MaterialsState] (the actions are the functions
    below). *)
Record MaterialsState : Type := mkState {
  materials : list Material;
  setores : list Setor.t;
  loading : bool
}.

(** [set((state) => ({ materials: f(state.materials) }))]: zustand merges
    the returned object into the state, the other keys stay. *)
Definition set_materials (f : list Material -> list Material)
    (state : MaterialsState) : MaterialsState :=
  {| materials := f (materials state);
     setores := setores state;
     loading := loading state |}.

Definition mockSetores : list Setor.t :=
  [ Setor.mk "1" "Administração" ["Sala 101"; "Sala 102"; "Recepção"];
    Setor.mk "2" "Produção" ["Linha 1"; "Linha 2"; "Estoque"];
    Setor.mk "3" "TI" ["Sala Servidores"; "Sala Técnica"; "Escritório TI"];
    Setor.mk "4" "RH" ["Sala RH"; "Sala Reunião"; "Arquivo"] ].

(** The inch mark that ends the name of the second mock material. *)
Definition inch_mark : string := String (ascii_of_nat 34) EmptyString.

Definition mockMaterials : list Material :=
  [ {| id := "1";
       nome := "Computador Desktop Dell";
       bmp := "BMP001";
       setor := "TI";
       sala := "Escritório TI";
       responsavel := "João Silva";
       qrCode := "QR_001_HASH_ABC123";
       status := conferido_correto;
       ultimaConferencia :=
         Some {| data := "2024-01-15T10:30:00Z";
                 setorEncontrado := "TI";
                 salaEncontrada := "Escritório TI" |};
       dataCadastro := "2024-01-01T08:00:00Z" |};
    {| id := "2";
       nome := "Monitor LG 24" +:+ inch_mark;
       bmp := "BMP002";
       setor := "Administração";
       sala := "Sala 101";
       responsavel := "Maria Santos";
       qrCode := "QR_002_HASH_DEF456";
       status := conferido_outro_setor;
       ultimaConferencia :=
         Some {| data := "2024-01-15T11:15:00Z";
                 setorEncontrado := "TI";
                 salaEncontrada := "Sala Técnica" |};
       dataCadastro := "2024-01-02T09:15:00Z" |};
    {| id := "3";
       nome := "Impressora HP LaserJet";
       bmp := "BMP003";
       setor := "RH";
       sala := "Sala RH";
       responsavel := "Carlos Oliveira";
       qrCode := "QR_003_HASH_GHI789";
       status := nao_conferido;
       ultimaConferencia := None;
       dataCadastro := "2024-01-03T14:20:00Z" |} ].

(** The state the store is created with. *)
Definition initialState : MaterialsState :=
  {| materials := mockMaterials; setores := mockSetores; loading := false |}.

(** What one call of [addMaterial] reads from the outside: the two
    successive [Date.now()] (milliseconds), the characters (six at most)
    [Math.random().toString(36).substr(2, 6).toUpperCase()], and
    [new Date().toISOString()]. *)
Record AddEnv : Type := mkAddEnv {
  date_now_id : N;
  date_now_qr : N;
  random_hash : string;
  iso_now : string
}.

(** The template literal [`QR_${Date.now()}_HASH_${...}`]. *)
Definition make_qrCode (env : AddEnv) : string :=
  "QR_" +:+ pretty (date_now_qr env) +:+ "_HASH_" +:+ random_hash env.

(** The object literal [newMaterial]: the spread of [materialData] comes
    first, then [id], [qrCode], [status] and [dataCadastro], which
    therefore win over same-named keys of the argument. *)
Definition newMaterial (env : AddEnv) (materialData : MaterialData) : Material :=
  {| id := pretty (date_now_id env);
     nome := d_nome materialData;
     bmp := d_bmp materialData;
     setor := d_setor materialData;
     sala := d_sala materialData;
     responsavel := d_responsavel materialData;
     qrCode := make_qrCode env;
     status := nao_conferido;
     ultimaConferencia := d_ultimaConferencia materialData;
     dataCadastro := iso_now env |}.

(** [addMaterial]: [materials: [...state.materials, newMaterial]]. *)
Definition addMaterial (env : AddEnv) (materialData : MaterialData)
    (state : MaterialsState) : MaterialsState :=
  set_materials (fun ms => ms ++ [newMaterial env materialData]) state.

(** The spread [{ ...material, ...updates }]: a key of [updates] replaces
    the key of [material], a key that [updates] does not have stays. *)
Definition merge (material : Material) (updates : MaterialUpdates) : Material :=
  {| id := default (id material) (u_id updates);
     nome := default (nome material) (u_nome updates);
     bmp := default (bmp material) (u_bmp updates);
     setor := default (setor material) (u_setor updates);
     sala := default (sala material) (u_sala updates);
     responsavel := default (responsavel material) (u_responsavel updates);
     qrCode := default (qrCode material) (u_qrCode updates);
     status := default (status material) (u_status updates);
     ultimaConferencia :=
       default (ultimaConferencia material) (u_ultimaConferencia updates);
     dataCadastro := default (dataCadastro material) (u_dataCadastro updates) |}.

(** [updateMaterial]: a [map] over the array, every element whose [id] is
    the given one is replaced by its merge with [updates]. *)
Definition updateMaterial (id0 : string) (updates : MaterialUpdates)
    (state : MaterialsState) : MaterialsState :=
  set_materials
    (List.map (fun material =>
       if String.eqb (id material) id0 then merge material updates else material))
    state.

(** [deleteMaterial]: [filter(material => material.id !== id)]. *)
Definition deleteMaterial (id0 : string) (state : MaterialsState) : MaterialsState :=
  set_materials
    (List.filter (fun material => negb (String.eqb (id material) id0)))
    state.

(** The object that [conferirMaterial] puts in place of a matching [m]:
    the spread of [m], then [status] and a new [ultimaConferencia]. *)
Definition conferido (m : Material) (status0 : Status)
    (now setor0 sala0 : string) : Material :=
  {| id := id m;
     nome := nome m;
     bmp := bmp m;
     setor := setor m;
     sala := sala m;
     responsavel := responsavel m;
     qrCode := qrCode m;
     status := status0;
     ultimaConferencia :=
       Some {| data := now; setorEncontrado := setor0; salaEncontrada := sala0 |};
     dataCadastro := dataCadastro m |}.

(** The [map] of [conferirMaterial].  [new Date().toISOString()] stands
    inside the callback, so it is read once for every matching element:
    [clock k] is the k-th reading of one call, and [k] counts the readings
    made so far. *)
Fixpoint conferir_map (clock : nat -> string) (k : nat)
    (qrCode0 : string) (status0 : Status) (setor0 sala0 : string)
    (ms : list Material) : list Material :=
  match ms with
  | [] => []
  | m :: ms' =>
      if String.eqb (qrCode m) qrCode0
      then conferido m status0 (clock k) setor0 sala0
             :: conferir_map clock (S k) qrCode0 status0 setor0 sala0 ms'
      else m :: conferir_map clock k qrCode0 status0 setor0 sala0 ms'
  end.

(** [conferirMaterial]: the first material with the scanned code decides
    the status; without one the action returns before any [set]. *)
Definition conferirMaterial (clock : nat -> string)
    (qrCode0 setor0 sala0 : string) (state : MaterialsState) : MaterialsState :=
  match List.find (fun m => String.eqb (qrCode m) qrCode0) (materials state) with
  | None => state
  | Some material =>
      let isCorrectLocation :=
        String.eqb (setor material) setor0 && String.eqb (sala material) sala0 in
      let status0 :=
        if isCorrectLocation then conferido_correto else conferido_outro_setor in
      set_materials (conferir_map clock 0 qrCode0 status0 setor0 sala0) state
  end.

(** *** Sequences of calls *)

(** One call of an action of the store, with what it reads from outside. *)
Inductive Op : Type :=
  | OpAdd (env : AddEnv) (materialData : MaterialData)
  | OpUpdate (id0 : string) (updates : MaterialUpdates)
  | OpDelete (id0 : string)
  | OpConferir (clock : nat -> string) (qrCode0 setor0 sala0 : string).

Definition step (state : MaterialsState) (op : Op) : MaterialsState :=
  match op with
  | OpAdd env materialData => addMaterial env materialData state
  | OpUpdate id0 updates => updateMaterial id0 updates state
  | OpDelete id0 => deleteMaterial id0 state
  | OpConferir clock qrCode0 setor0 sala0 =>
      conferirMaterial clock qrCode0 setor0 sala0 state
  end.

Definition run (ops : list Op) (state : MaterialsState) : MaterialsState :=
  fold_left step ops state.

(** The states that the store goes through from [initialState] when every
    call satisfies [allowed] in the state it is made in. *)
Inductive reachable_by (allowed : MaterialsState -> Op -> Prop)
    : MaterialsState -> Prop :=
  | reach_init : reachable_by allowed initialState
  | reach_step state op :
      reachable_by allowed state ->
      allowed state op ->
      reachable_by allowed (step state op).

(** Any call at all. *)
Definition any_call : MaterialsState -> Op -> Prop := fun _ _ => True.

(** An update of the materials of [id] [id0] that writes [value] under
    the key read by [key] brings no second material with that value: at
    most one material has the [id], and no material with another [id]
    has the value already.  An update without the key ([None]) asks
    nothing. *)
Definition key_update_ok (key : Material -> string) (id0 : string)
    (newkey : option string) (ms : list Material) : Prop :=
  ∀ value, newkey = Some value →
    (∀ i j m m', ms !! i = Some m → ms !! j = Some m' →
                 id m = id0 → id m' = id0 → i = j)
    ∧ (∀ m m', m ∈ ms → m' ∈ ms → id m = id0 → id m' ≠ id0 → key m' ≠ value).

(** Calls that cannot bring a second material with a [bmp] or [qrCode]
    already in use: a creation with a [bmp] and a generated [qrCode] that
    no material has; an update whose [bmp] and [qrCode], when it has
    them, go to one material at most and are not those of a material
    with another [id] (so an edit that keeps the [bmp] of the edited
    material, or gives it an unused one, is such a call). *)
Definition fresh_keys (state : MaterialsState) (op : Op) : Prop :=
  match op with
  | OpAdd env materialData =>
      (d_bmp materialData ∉ (bmp <$> materials state))
      ∧ (make_qrCode env ∉ (qrCode <$> materials state))
  | OpUpdate id0 updates =>
      key_update_ok bmp id0 (u_bmp updates) (materials state)
      ∧ key_update_ok qrCode id0 (u_qrCode updates) (materials state)
  | OpDelete _ => True
  | OpConferir _ _ _ _ => True
  end.

(** Calls whose updates have neither [status] nor [ultimaConferencia]. *)
Definition conference_untouched (_ : MaterialsState) (op : Op) : Prop :=
  match op with
  | OpUpdate _ updates =>
      u_status updates = None ∧ u_ultimaConferencia updates = None
  | _ => True
  end.

(** No two materials share a [bmp], no two share a [qrCode]. *)
Definition unique_keys (state : MaterialsState) : Prop :=
  NoDup (bmp <$> materials state) ∧ NoDup (qrCode <$> materials state).

(** A material without [ultimaConferencia] is [nao_conferido]. *)
Definition unconferred_is_nao_conferido (state : MaterialsState) : Prop :=
  ∀ m, m ∈ materials state →
    ultimaConferencia m = None → status m = nao_conferido.

(** *** Equality apart from the time of the conference *)

(** The material with the [data] of its [ultimaConferencia] blanked. *)
Definition erase_data (m : Material) : Material :=
  {| id := id m;
     nome := nome m;
     bmp := bmp m;
     setor := setor m;
     sala := sala m;
     responsavel := responsavel m;
     qrCode := qrCode m;
     status := status m;
     ultimaConferencia :=
       match ultimaConferencia m with
       | Some c =>
           Some {| data := EmptyString;
                   setorEncontrado := setorEncontrado c;
                   salaEncontrada := salaEncontrada c |}
       | None => None
       end;
     dataCadastro := dataCadastro m |}.

(** Two states that differ at most in the [data] of some
    [ultimaConferencia]. *)
Definition same_apart_from_data (s1 s2 : MaterialsState) : Prop :=
  (erase_data <$> materials s1) = (erase_data <$> materials s2)
  ∧ setores s1 = setores s2
  ∧ loading s1 = loading s2.

(** ** pages/Materiais.tsx: the handlers of the form *)

Module MateriaisPage.

(** The [useState] object [newMaterial] of the form. *)
Record Form : Type := mkForm {
  f_nome : string;
  f_bmp : string;
  f_setor : string;
  f_sala : string;
  f_responsavel : string
}.

(** The component's [useState] cells that the handlers write. *)
Record PageState : Type := mkPage {
  newMaterial : Form;
  isAddDialogOpen : bool;
  editingMaterial : option Material
}.

Definition emptyForm : Form :=
  mkForm EmptyString EmptyString EmptyString EmptyString EmptyString.

(** [!s] for a string [s]: true for the empty string only. *)
Definition falsy (s : string) : bool := String.eqb s EmptyString.

(** [!newMaterial.nome || !newMaterial.bmp || !newMaterial.setor ||
    !newMaterial.sala] *)
Definition missing_required (f : Form) : bool :=
  falsy (f_nome f) || falsy (f_bmp f) || falsy (f_setor f) || falsy (f_sala f).

(** [{ ...newMaterial, status: 'nao_conferido' as const }] *)
Definition form_data (f : Form) : MaterialData :=
  {| d_nome := f_nome f;
     d_bmp := f_bmp f;
     d_setor := f_setor f;
     d_sala := f_sala f;
     d_responsavel := f_responsavel f;
     d_status := nao_conferido;
     d_ultimaConferencia := None |}.

(** [handleAddMaterial]: returns at once when a required field is
    empty; otherwise calls [addMaterial], clears the form and closes
    the dialog. *)
Definition handleAddMaterial (env : AddEnv)
    (page : PageState) (store : MaterialsState) : PageState * MaterialsState :=
  if missing_required (newMaterial page) then (page, store)
  else
    ({| newMaterial := emptyForm;
        isAddDialogOpen := false;
        editingMaterial := editingMaterial page |},
     addMaterial env (form_data (newMaterial page)) store).

(** The object literal that [handleUpdateMaterial] passes. *)
Definition form_updates (f : Form) : MaterialUpdates :=
  {| u_id := None;
     u_nome := Some (f_nome f);
     u_bmp := Some (f_bmp f);
     u_setor := Some (f_setor f);
     u_sala := Some (f_sala f);
     u_responsavel := Some (f_responsavel f);
     u_qrCode := None;
     u_status := None;
     u_ultimaConferencia := None;
     u_dataCadastro := None |}.

(** [handleUpdateMaterial] *)
Definition handleUpdateMaterial
    (page : PageState) (store : MaterialsState) : PageState * MaterialsState :=
  match editingMaterial page with
  | None => (page, store)
  | Some editing =>
      if missing_required (newMaterial page) then (page, store)
      else
        ({| newMaterial := emptyForm;
            isAddDialogOpen := isAddDialogOpen page;
            editingMaterial := None |},
         updateMaterial (id editing) (form_updates (newMaterial page)) store)
  end.

(** The [onValueChange] of the sector of the form:
    [setNewMaterial({...newMaterial, setor: value, sala: ""})]; choosing
    a sector empties the room. *)
Definition changeSetor (value : string) (page : PageState) : PageState :=
  {| newMaterial :=
       {| f_nome := f_nome (newMaterial page);
          f_bmp := f_bmp (newMaterial page);
          f_setor := value;
          f_sala := EmptyString;
          f_responsavel := f_responsavel (newMaterial page) |};
     isAddDialogOpen := isAddDialogOpen page;
     editingMaterial := editingMaterial page |}.

(** [handleEditMaterial]: remembers the material and copies its five
    editable fields into the form. *)
Definition handleEditMaterial (material : Material) (page : PageState) : PageState :=
  {| newMaterial :=
       {| f_nome := nome material;
          f_bmp := bmp material;
          f_setor := setor material;
          f_sala := sala material;
          f_responsavel := responsavel material |};
     isAddDialogOpen := isAddDialogOpen page;
     editingMaterial := Some material |}.

(** The status of a material as the string it is at run time. *)
Definition status_string (s : Status) : string :=
  match s with
  | nao_conferido => "nao_conferido"
  | conferido_correto => "conferido_correto"
  | conferido_outro_setor => "conferido_outro_setor"
  end.

(** [s.includes(t)]: [t] occurs in [s] at some position; the empty
    string occurs in every string. *)
Fixpoint includes (s t : string) : bool :=
  String.prefix t s
  || match s with
     | EmptyString => false
     | String _ s' => includes s' t
     end.

Section Filter.

(** [String.prototype.toLowerCase], which the page applies before the
    search; its case mapping is not part of this model. *)
Variable toLowerCase : string -> string.

Definition matchesSearch (searchTerm : string) (material : Material) : bool :=
  includes (toLowerCase (nome material)) (toLowerCase searchTerm)
  || includes (toLowerCase (bmp material)) (toLowerCase searchTerm)
  || includes (toLowerCase (responsavel material)) (toLowerCase searchTerm).

Definition matchesStatus (filterStatus : string) (material : Material) : bool :=
  String.eqb filterStatus "all"
  || String.eqb (status_string (status material)) filterStatus.

(** [filteredMaterials], the rows of the table. *)
Definition filteredMaterials (searchTerm filterStatus : string)
    (ms : list Material) : list Material :=
  List.filter
    (fun material =>
       matchesSearch searchTerm material && matchesStatus filterStatus material)
    ms.

End Filter.

End MateriaisPage.

(** ** hooks/useAuth.ts *)

Module Auth.

(** [tipo: 'admin' | 'operador'] *)
Inductive Tipo : Type := admin | operador.

(** [interface User] *)
Record User : Type := mkUser {
  user_id : string;
  user_login : string;
  user_nome : string;
  tipo : Tipo
}.

(** The data part of [AuthState]. *)
Record AuthState : Type := mkAuth {
  user : option User;
  isAuthenticated : bool
}.

(** [{ login: string; senha: string }] *)
Record Credentials : Type := mkCredentials {
  cred_login : string;
  senha : string
}.

(** The state the store is created with (before the [persist]
    middleware restores a saved one, which is outside this model). *)
Definition initialState : AuthState :=
  {| user := None; isAuthenticated := false |}.

(** [credentials.login === 'admin' && credentials.senha === '123456'] *)
Definition accepted (credentials : Credentials) : bool :=
  String.eqb (cred_login credentials) "admin"
  && String.eqb (senha credentials) "123456".

(** The [user] object that [login] stores. *)
Definition mockUser : User :=
  {| user_id := "1";
     user_login := "admin";
     user_nome := "Administrador";
     tipo := admin |}.

(** [login]: the state after the call and the boolean that the promise
    resolves to. *)
Definition login (credentials : Credentials) (state : AuthState)
    : AuthState * bool :=
  if accepted credentials
  then ({| user := Some mockUser; isAuthenticated := true |}, true)
  else (state, false).

(** [logout] *)
Definition logout (state : AuthState) : AuthState :=
  {| user := None; isAuthenticated := false |}.

(** One call of the session store. *)
Inductive Call : Type :=
  | CallLogin (credentials : Credentials)
  | CallLogout.

Definition call (state : AuthState) (c : Call) : AuthState :=
  match c with
  | CallLogin credentials => fst (login credentials state)
  | CallLogout => logout state
  end.

Definition calls (cs : list Call) (state : AuthState) : AuthState :=
  fold_left call cs state.

End Auth.

(** ** Calls that keep the [id]s apart *)

(** Calls that cannot bring a second material with an [id] already in
    use: a creation at a millisecond whose decimal writing no material
    has as [id], an update without the key [id]. *)
Definition fresh_ids (state : MaterialsState) (op : Op) : Prop :=
  match op with
  | OpAdd env _ => pretty (date_now_id env) ∉ (id <$> materials state)
  | OpUpdate _ updates => u_id updates = None
  | OpDelete _ => True
  | OpConferir _ _ _ _ => True
  end.

Definition unique_ids (state : MaterialsState) : Prop :=
  NoDup (id <$> materials state).

(** ** The sector directory: [getSalasDoSetor]

    The pages Materiais, QRScanner and Setores each define this same
    function over the [setores] of the store. *)
Definition getSalasDoSetor (setores0 : list Setor.t) (setor0 : string) : list string :=
  match List.find (fun s => String.eqb (Setor.nome s) setor0) setores0 with
  | Some setorObj => Setor.salas setorObj
  | None => []
  end.

(** ** hooks/use-toast: the argument of [toast] *)

Inductive ToastVariant : Type := variant_default | variant_destructive.

Record Toast : Type := mkToast {
  title : string;
  description : string;
  variant : ToastVariant
}.

(** ** pages/Dashboard.tsx: the statistics *)

Module Dashboard.

(** [materials.filter(m => m.status === s).length] *)
Definition count_status (s : Status) (ms : list Material) : nat :=
  length (List.filter (fun m => bool_decide (status m = s)) ms).

Definition totalMaterials (state : MaterialsState) : nat :=
  length (materials state).

Definition conferidosCorretos (state : MaterialsState) : nat :=
  count_status conferido_correto (materials state).

Definition conferidosOutroSetor (state : MaterialsState) : nat :=
  count_status conferido_outro_setor (materials state).

Definition naoConferidos (state : MaterialsState) : nat :=
  count_status nao_conferido (materials state).

End Dashboard.

(** ** pages/Setores.tsx: the materials of a place *)

Module SetoresPage.

Record PageState : Type := mkPage {
  selectedSetor : string;
  selectedSala : string
}.

(** The test of [filteredMaterials]. *)
Definition in_selected_place (page : PageState) (material : Material) : bool :=
  if MateriaisPage.falsy (selectedSetor page) then false
  else if MateriaisPage.falsy (selectedSala page)
          || String.eqb (selectedSala page) "all"
  then String.eqb (setor material) (selectedSetor page)
  else String.eqb (setor material) (selectedSetor page)
       && String.eqb (sala material) (selectedSala page).

Definition filteredMaterials (page : PageState) (ms : list Material) : list Material :=
  List.filter (in_selected_place page) ms.

(** [onValueChange] of the sector: [setSelectedSetor(value);
    setSelectedSala("all")]. *)
Definition changeSetor (value : string) (page : PageState) : PageState :=
  {| selectedSetor := value; selectedSala := "all" |}.

(** [onValueChange] of the room: [setSelectedSala]. *)
Definition changeSala (value : string) (page : PageState) : PageState :=
  {| selectedSetor := selectedSetor page; selectedSala := value |}.

End SetoresPage.

(** ** pages/QRScanner.tsx *)

Module QRScanner.

(** The object that [handleQRCodeDetected] passes to [setScanResult]. *)
Record ScanResult : Type := mkScanResult {
  sr_qrCode : string;
  sr_setor : string;
  sr_sala : string;
  sr_timestamp : string
}.

(** The [useState] cells of the page, and whether [streamRef.current]
    holds a stream. *)
Record PageState : Type := mkPage {
  selectedSetor : string;
  selectedSala : string;
  isScanning : bool;
  scanResult : option ScanResult;
  streamRef : bool
}.

(** The page before any event. *)
Definition initialPage : PageState :=
  {| selectedSetor := EmptyString;
     selectedSala := EmptyString;
     isScanning := false;
     scanResult := None;
     streamRef := false |}.

(** [onValueChange] of the sector: [setSelectedSetor(value);
    setSelectedSala("")]. *)
Definition changeSetor (value : string) (page : PageState) : PageState :=
  {| selectedSetor := value;
     selectedSala := EmptyString;
     isScanning := isScanning page;
     scanResult := scanResult page;
     streamRef := streamRef page |}.

(** [onValueChange] of the room: [setSelectedSala]. *)
Definition changeSala (value : string) (page : PageState) : PageState :=
  {| selectedSetor := selectedSetor page;
     selectedSala := value;
     isScanning := isScanning page;
     scanResult := scanResult page;
     streamRef := streamRef page |}.

(** The [video] element, hence [videoRef.current], exists in the branch
    of the page that is rendered while [isScanning] holds. *)
Definition videoRef_current (page : PageState) : bool := isScanning page.

(** The toast of [startScanning] when the place is not chosen. *)
Definition toast_select_place : Toast :=
  {| title := "Erro";
     description := "Selecione o setor e a sala antes de iniciar a conferência";
     variant := variant_destructive |}.

(** [startScanning].  [camera] tells whether [getUserMedia] resolved
    with a stream (or rejected), [video] whether [videoRef.current] is
    set when the promise resolves. *)
Definition startScanning (camera video : bool) (page : PageState)
    : PageState * list Toast :=
  if MateriaisPage.falsy (selectedSetor page)
     || MateriaisPage.falsy (selectedSala page)
  then (page, [toast_select_place])
  else if camera then
    if video then
      ({| selectedSetor := selectedSetor page;
          selectedSala := selectedSala page;
          isScanning := true;
          scanResult := scanResult page;
          streamRef := true |}, [])
    else (page, [])
  else (page,
        [ {| title := "Erro";
             description := "Não foi possível acessar a câmera";
             variant := variant_destructive |} ]).

(** [stopScanning]: the tracks of the stream, if there is one, are
    stopped and the reference is cleared; then [setIsScanning(false)] and
    [setScanResult(null)]. *)
Definition stopScanning (page : PageState) : PageState :=
  {| selectedSetor := selectedSetor page;
     selectedSala := selectedSala page;
     isScanning := false;
     scanResult := None;
     streamRef := false |}.

(** [setScanResult] with the object of [handleQRCodeDetected]. *)
Definition setScanResult (r : option ScanResult) (page : PageState) : PageState :=
  {| selectedSetor := selectedSetor page;
     selectedSala := selectedSala page;
     isScanning := isScanning page;
     scanResult := r;
     streamRef := streamRef page |}.

(** [handleQRCodeDetected]: the call of the store, [setScanResult], the
    toast, then [stopScanning], whose [setScanResult(null)] comes last.
    [clock] is what the store reads, [timestamp] what the page reads. *)
Definition handleQRCodeDetected (clock : nat -> string) (timestamp : string)
    (qrCodeData : string) (page : PageState) (store : MaterialsState)
    : PageState * MaterialsState * list Toast :=
  (stopScanning
     (setScanResult
        (Some {| sr_qrCode := qrCodeData;
                 sr_setor := selectedSetor page;
                 sr_sala := selectedSala page;
                 sr_timestamp := timestamp |})
        page),
   conferirMaterial clock qrCodeData (selectedSetor page) (selectedSala page) store,
   [ {| title := "QR Code Lido!";
        description :=
          "Material conferido em " +:+ selectedSetor page
            +:+ " - " +:+ selectedSala page;
        variant := variant_default |} ]).

(** What the user can do on the page while the camera is off: choose a
    sector, choose a room, press the start button ([camera] is the
    outcome of [getUserMedia]), and [stopScanning]. *)
Inductive Event : Type :=
  | SelectSetor (value : string)
  | SelectSala (value : string)
  | ClickStart (camera : bool)
  | ClickStop.

Definition handle (page : PageState) (e : Event) : PageState :=
  match e with
  | SelectSetor value => changeSetor value page
  | SelectSala value => changeSala value page
  | ClickStart camera => fst (startScanning camera (videoRef_current page) page)
  | ClickStop => stopScanning page
  end.

Definition handle_all (es : list Event) (page : PageState) : PageState :=
  fold_left handle es page.

End QRScanner.

(** ** pages/Login.tsx *)

Module LoginPage.

Record PageState : Type := mkPage {
  credentials : Auth.Credentials;
  loading : bool
}.

(** [handleSubmit]: [setLoading(true)], the call of [login], one toast,
    and [setLoading(false)] in the [finally]. *)
Definition handleSubmit (page : PageState) (auth : Auth.AuthState)
    : PageState * Auth.AuthState * list Toast :=
  let (auth', success) := Auth.login (credentials page) auth in
  ({| credentials := credentials page; loading := false |},
   auth',
   [ if success
     then {| title := "Login realizado com sucesso";
             description := "Bem-vindo ao sistema de controle de materiais!";
             variant := variant_default |}
     else {| title := "Erro no login";
             description := "Credenciais inválidas. Tente novamente.";
             variant := variant_destructive |} ]).

End LoginPage.

(** ** pages/Materiais.tsx: the role test of the table *)

Module MateriaisTable.

(** [user?.tipo === 'admin'], the test under which a row gets its delete
    button. *)
Definition showDelete (user : option Auth.User) : bool :=
  match user with
  | Some u => match Auth.tipo u with Auth.admin => true | Auth.operador => false end
  | None => false
  end.

End MateriaisTable.

(** * Properties *)

(** Case analysis on a comparison of strings, with the equation or the
    disequation in the context. *)
Ltac case_eqb a b :=
  let E := fresh "E" in
  destruct (String.eqb_spec a b) as [E | E].

(** ** The search and the map of [conferirMaterial] *)

Lemma find_qrCode_None (qrCode0 : string) (ms : list Material) :
  (∀ m, m ∈ ms → qrCode m ≠ qrCode0) →
  List.find (fun m => String.eqb (qrCode m) qrCode0) ms = None.
Proof.
  induction ms as [| m ms IH]; intros Hno; simpl; [reflexivity |].
  case_eqb (qrCode m) qrCode0.
  - exfalso. apply (Hno m); [left | assumption].
  - apply IH. intros m' Hin. apply Hno. by right.
Qed.

(** [find] returns the first element that satisfies the test. *)
Lemma find_qrCode_Some (qrCode0 : string) (ms : list Material) (m : Material) :
  List.find (fun m => String.eqb (qrCode m) qrCode0) ms = Some m →
  ∃ i, ms !! i = Some m ∧ qrCode m = qrCode0.
Proof.
  induction ms as [| m0 ms IH]; simpl; [discriminate |].
  case_eqb (qrCode m0) qrCode0.
  - intros [= <-]. by exists 0.
  - intros Hfind. destruct (IH Hfind) as (i & Hi & Hq). by exists (S i).
Qed.

Lemma find_qrCode_is_Some (qrCode0 : string) (ms : list Material) (i : nat) (m : Material) :
  ms !! i = Some m → qrCode m = qrCode0 →
  is_Some (List.find (fun m => String.eqb (qrCode m) qrCode0) ms).
Proof.
  intros Hi Hq.
  destruct (List.find _ ms) as [m' |] eqn:Hfind; [by eexists |].
  assert (Hin : In m ms).
  { apply list_elem_of_In, list_elem_of_lookup. by exists i. }
  pose proof (find_none _ _ Hfind m Hin) as Hf. simpl in Hf.
  rewrite Hq, String.eqb_refl in Hf. discriminate.
Qed.

Section ConferirMap.

Variable clock : nat -> string.
Variables qrCode0 setor0 sala0 : string.
Variable status0 : Status.

Local Abbreviation cmap k := (conferir_map clock k qrCode0 status0 setor0 sala0).

Lemma conferir_map_length (ms : list Material) (k : nat) :
  length (cmap k ms) = length ms.
Proof.
  revert k. induction ms as [| m ms IH]; intros k; simpl; [reflexivity |].
  case_eqb (qrCode m) qrCode0; simpl; by rewrite IH.
Qed.

(** Every element is either kept or replaced by [conferido] of itself,
    with some reading of the clock. *)
Lemma conferir_map_lookup (ms : list Material) (k i : nat) (m : Material) :
  ms !! i = Some m →
  ∃ now, cmap k ms !! i =
    Some (if String.eqb (qrCode m) qrCode0
          then conferido m status0 now setor0 sala0 else m).
Proof.
  revert k i. induction ms as [| m0 ms IH]; intros k i Hi; [discriminate |].
  destruct i as [| i]; simpl in *.
  - injection Hi as ->.
    case_eqb (qrCode m) qrCode0; simpl; by eexists.
  - case_eqb (qrCode m0) qrCode0; simpl; by apply IH.
Qed.

(** The first matching element gets the first reading of the clock. *)
Lemma conferir_map_lookup_first (ms : list Material) (k i : nat) (m : Material) :
  ms !! i = Some m →
  (∀ j m', j < i → ms !! j = Some m' → qrCode m' ≠ qrCode0) →
  cmap k ms !! i =
    Some (if String.eqb (qrCode m) qrCode0
          then conferido m status0 (clock k) setor0 sala0 else m).
Proof.
  revert k i. induction ms as [| m0 ms IH]; intros k i Hi Hbefore; [discriminate |].
  destruct i as [| i]; simpl in *.
  - injection Hi as ->.
    case_eqb (qrCode m) qrCode0; reflexivity.
  - case_eqb (qrCode m0) qrCode0; simpl.
    + exfalso. apply (Hbefore 0 m0); [lia | reflexivity | assumption].
    + apply IH; [assumption |].
      intros j m' Hj Hm'. apply (Hbefore (S j) m'); [lia | assumption].
Qed.

(** The search after the map finds the replaced first match. *)
Lemma find_conferir_map (ms : list Material) (k : nat) :
  List.find (fun m => String.eqb (qrCode m) qrCode0) (cmap k ms) =
  match List.find (fun m => String.eqb (qrCode m) qrCode0) ms with
  | Some m => Some (conferido m status0 (clock k) setor0 sala0)
  | None => None
  end.
Proof.
  revert k. induction ms as [| m ms IH]; intros k; simpl; [reflexivity |].
  case_eqb (qrCode m) qrCode0; simpl.
  - by rewrite E, String.eqb_refl.
  - apply String.eqb_neq in E. rewrite E. apply IH.
Qed.

End ConferirMap.

(** A second map with the same code, status and place overwrites what the
    first one wrote. *)
Lemma conferir_map_twice (clock1 clock2 : nat -> string) (k1 k2 : nat)
    (qrCode0 setor0 sala0 : string) (status0 : Status) (ms : list Material) :
  conferir_map clock2 k2 qrCode0 status0 setor0 sala0
    (conferir_map clock1 k1 qrCode0 status0 setor0 sala0 ms)
  = conferir_map clock2 k2 qrCode0 status0 setor0 sala0 ms.
Proof.
  revert k1 k2. induction ms as [| m ms IH]; intros k1 k2; simpl; [reflexivity |].
  case_eqb (qrCode m) qrCode0; simpl.
  - rewrite E, String.eqb_refl. unfold conferido at 1; simpl.
    f_equal. apply IH.
  - apply String.eqb_neq in E. rewrite E. f_equal. apply IH.
Qed.

(** The clock shows in the [data] of the conferences only. *)
Lemma conferir_map_erase_data (clock1 clock2 : nat -> string) (k1 k2 : nat)
    (qrCode0 setor0 sala0 : string) (status0 : Status) (ms : list Material) :
  erase_data <$> conferir_map clock1 k1 qrCode0 status0 setor0 sala0 ms
  = erase_data <$> conferir_map clock2 k2 qrCode0 status0 setor0 sala0 ms.
Proof.
  revert k1 k2. induction ms as [| m ms IH]; intros k1 k2; simpl; [reflexivity |].
  case_eqb (qrCode m) qrCode0; simpl.
  - f_equal. apply IH.
  - f_equal. apply IH.
Qed.

(** ** [conferirMaterial] *)

(** The decision rule: [isCorrectLocation ? 'conferido_correto' :
    'conferido_outro_setor'], for an expected place [(a, b)] and an
    observed place [(S, R)]. *)
Lemma status_rule (a b S R : string) :
  (((if String.eqb a S && String.eqb b R
     then conferido_correto else conferido_outro_setor) = conferido_correto)
   ↔ S = a ∧ R = b)
  ∧ (((if String.eqb a S && String.eqb b R
       then conferido_correto else conferido_outro_setor) = conferido_outro_setor)
     ↔ ¬ (S = a ∧ R = b)).
Proof.
  case_eqb a S; case_eqb b R; subst; simpl;
    (split; split); intros H; try discriminate H; try reflexivity.
  all: try (split; reflexivity).
  all: try (by destruct H).
  all: try (intros [? ?]; congruence).
Qed.

(** A material created for the place (TI, Escritório TI) and scanned
    there is [conferido_correto]. *)
Example scan_at_expected_place :
  status <$>
    materials
      (conferirMaterial (fun _ => "2024-03-01T12:00:00.000Z")
         "QR_1706788800001_HASH_K3X9QZ" "TI" "Escritório TI"
         (addMaterial
            (mkAddEnv 1706788800000 1706788800001 "K3X9QZ" "2024-02-01T12:00:00.000Z")
            (mkMaterialData "Notebook Lenovo" "BMP004" "TI" "Escritório TI"
               "Ana Lima" nao_conferido None)
            initialState)) !! 3
  = Some conferido_correto.
Proof. vm_compute. reflexivity. Qed.

(** A material created for (Administração, Sala 101) and scanned in
    (TI, Sala Técnica) is [conferido_outro_setor]. *)
Example scan_at_other_place :
  status <$>
    materials
      (conferirMaterial (fun _ => "2024-03-01T12:00:00.000Z")
         "QR_1706788800001_HASH_K3X9QZ" "TI" "Sala Técnica"
         (addMaterial
            (mkAddEnv 1706788800000 1706788800001 "K3X9QZ" "2024-02-01T12:00:00.000Z")
            (mkMaterialData "Cadeira" "BMP005" "Administração" "Sala 101"
               "Ana Lima" nao_conferido None)
            initialState)) !! 3
  = Some conferido_outro_setor.
Proof. vm_compute. reflexivity. Qed.

(** With two materials of the same [qrCode], the first one decides the
    status of both. *)
Example scan_shared_code :
  status <$>
    materials
      (conferirMaterial (fun _ => "2024-03-01T12:00:00.000Z")
         "QR_001_HASH_ABC123" "RH" "Sala RH"
         (updateMaterial "3"
            (mkMaterialUpdates None None None None None None
               (Some "QR_001_HASH_ABC123") None None None)
            initialState))
  = [conferido_outro_setor; conferido_outro_setor; conferido_outro_setor].
Proof. vm_compute. reflexivity. Qed.

(** C2: when no material of the registry has the scanned code as its
    [qrCode], [conferirMaterial] returns the state it was called in:
    nothing is modified, added or removed. *)
Theorem conferirMaterial_unknown_code (clock : nat -> string)
    (qrCode0 setor0 sala0 : string) (state : MaterialsState) :
  (∀ m, m ∈ materials state → qrCode m ≠ qrCode0) →
  conferirMaterial clock qrCode0 setor0 sala0 state = state.
Proof.
  intros Hno. unfold conferirMaterial.
  by rewrite (find_qrCode_None _ _ Hno).
Qed.

Lemma conferirMaterial_unknown_code_witness :
  (∀ m, m ∈ materials initialState → qrCode m ≠ "QR_404_HASH_XXXXXX")
  ∧ conferirMaterial (fun _ => "2024-03-01T12:00:00.000Z")
      "QR_404_HASH_XXXXXX" "TI" "Sala Técnica" initialState = initialState.
Proof.
  assert (H : ∀ m, m ∈ materials initialState → qrCode m ≠ "QR_404_HASH_XXXXXX").
  { apply Forall_forall. apply (bool_decide_unpack _). vm_compute. exact I. }
  split; [exact H |].
  apply (conferirMaterial_unknown_code _ _ _ _ _ H).
Defined.

(** C1: for a material [M] at position [i] of the registry whose [qrCode]
    no material at another position has, [conferirMaterial] with that code
    and the observed place [(S, R)] leaves at position [i] a material
    whose status is [conferido_correto] exactly when [S] is [M]'s [setor]
    and [R] is [M]'s [sala], and [conferido_outro_setor] otherwise, and
    whose [ultimaConferencia] is the record of the time read, [S] and
    [R]. *)
Theorem conferirMaterial_decides_status (clock : nat -> string)
    (S R : string) (state : MaterialsState) (i : nat) (M : Material) :
  materials state !! i = Some M →
  (∀ j M', materials state !! j = Some M' → qrCode M' = qrCode M → j = i) →
  ∃ M',
    materials (conferirMaterial clock (qrCode M) S R state) !! i = Some M'
    ∧ (status M' = conferido_correto ↔ S = setor M ∧ R = sala M)
    ∧ (status M' = conferido_outro_setor ↔ ¬ (S = setor M ∧ R = sala M))
    ∧ ultimaConferencia M' =
        Some {| data := clock 0; setorEncontrado := S; salaEncontrada := R |}.
Proof.
  intros Hi Huniq. unfold conferirMaterial.
  destruct (find_qrCode_is_Some (qrCode M) _ i M Hi eq_refl) as [m Hfind].
  rewrite Hfind.
  destruct (find_qrCode_Some _ _ _ Hfind) as (j & Hj & Hq).
  assert (j = i) as -> by (by apply (Huniq j m)).
  assert (m = M) as -> by congruence.
  simpl.
  rewrite (conferir_map_lookup_first clock (qrCode M) S R _ _ 0 i M Hi).
  - rewrite String.eqb_refl. eexists. split; [reflexivity |]. simpl.
    destruct (status_rule (setor M) (sala M) S R) as [Hcorreto Houtro].
    split; [exact Hcorreto | split; [exact Houtro | reflexivity]].
  - intros j m' Hlt Hm' Heq. specialize (Huniq j m' Hm' Heq). lia.
Qed.

Lemma conferirMaterial_decides_status_witness :
  ∃ M',
    materials (conferirMaterial (fun _ => "2024-03-01T12:00:00.000Z")
                 "QR_003_HASH_GHI789" "TI" "Sala Técnica" initialState) !! 2
      = Some M'
    ∧ status M' = conferido_outro_setor
    ∧ ultimaConferencia M' =
        Some {| data := "2024-03-01T12:00:00.000Z";
                setorEncontrado := "TI";
                salaEncontrada := "Sala Técnica" |}.
Proof.
  destruct (conferirMaterial_decides_status
              (fun _ => "2024-03-01T12:00:00.000Z") "TI" "Sala Técnica"
              initialState 2
              (mkMaterial "3" "Impressora HP LaserJet" "BMP003" "RH" "Sala RH"
                 "Carlos Oliveira" "QR_003_HASH_GHI789" nao_conferido None
                 "2024-01-03T14:20:00Z"))
    as (M' & Hlookup & _ & Houtro & Hconf).
  - reflexivity.
  - intros [| [| [| j]]] m' Hm' Hq; simpl in Hm';
      [injection Hm' as <-; discriminate Hq
      | injection Hm' as <-; discriminate Hq
      | reflexivity
      | discriminate Hm'].
  - exists M'. split; [exact Hlookup |]. split; [| exact Hconf].
    apply Houtro. simpl. intros [Hs _]. discriminate Hs.
Defined.

(** C5: a scan leaves every material at its position; a material whose
    [qrCode] is not the scanned code is unchanged, and a material whose
    [qrCode] is the scanned code keeps its [setor] and [sala] and all its
    other fields, [status] and [ultimaConferencia] apart.  The directory
    of sectors and the loading flag are not written either. *)
Theorem conferirMaterial_frame (clock : nat -> string)
    (qrCode0 S R : string) (state : MaterialsState) (i : nat) (m : Material) :
  materials state !! i = Some m →
  length (materials (conferirMaterial clock qrCode0 S R state))
    = length (materials state)
  ∧ setores (conferirMaterial clock qrCode0 S R state) = setores state
  ∧ loading (conferirMaterial clock qrCode0 S R state) = loading state
  ∧ ∃ m',
      materials (conferirMaterial clock qrCode0 S R state) !! i = Some m'
      ∧ (qrCode m ≠ qrCode0 → m' = m)
      ∧ setor m' = setor m ∧ sala m' = sala m
      ∧ id m' = id m ∧ nome m' = nome m ∧ bmp m' = bmp m
      ∧ responsavel m' = responsavel m ∧ qrCode m' = qrCode m
      ∧ dataCadastro m' = dataCadastro m.
Proof.
  intros Hi. unfold conferirMaterial.
  destruct (List.find _ (materials state)) as [material |]; simpl.
  - split; [apply conferir_map_length |]. do 2 (split; [reflexivity |]).
    destruct (conferir_map_lookup clock qrCode0 S R
                (if String.eqb (setor material) S && String.eqb (sala material) R
                 then conferido_correto else conferido_outro_setor)
                _ 0 i m Hi) as [now Hnow].
    eexists. split; [exact Hnow |].
    case_eqb (qrCode m) qrCode0; simpl; by repeat split.
  - do 3 (split; [reflexivity |]).
    exists m. by repeat split.
Qed.

Lemma conferirMaterial_frame_witness :
  ∃ m',
    materials (conferirMaterial (fun _ => "2024-03-01T12:00:00.000Z")
                 "QR_002_HASH_DEF456" "RH" "Arquivo" initialState) !! 1
      = Some m'
    ∧ setor m' = "Administração" ∧ sala m' = "Sala 101".
Proof.
  destruct (conferirMaterial_frame
              (fun _ => "2024-03-01T12:00:00.000Z")
              "QR_002_HASH_DEF456" "RH" "Arquivo" initialState 1
              (mkMaterial "2" ("Monitor LG 24" +:+ inch_mark) "BMP002"
                 "Administração" "Sala 101" "Maria Santos" "QR_002_HASH_DEF456"
                 conferido_outro_setor
                 (Some (mkConferencia "2024-01-15T11:15:00Z" "TI" "Sala Técnica"))
                 "2024-01-02T09:15:00Z"))
    as (_ & _ & _ & m' & Hlookup & _ & Hsetor & Hsala & _).
  - reflexivity.
  - exists m'. split; [exact Hlookup |]. split; [exact Hsetor | exact Hsala].
Defined.

(** C6: a second [conferirMaterial] with the same code and the same
    observed place gives the state that a single call (made at the time
    of the second) gives, and that state differs from the one after the
    first call at most in the [data] of the conferences. *)
Theorem conferirMaterial_idempotent (clock1 clock2 : nat -> string)
    (qrCode0 S R : string) (state : MaterialsState) :
  conferirMaterial clock2 qrCode0 S R (conferirMaterial clock1 qrCode0 S R state)
    = conferirMaterial clock2 qrCode0 S R state
  ∧ same_apart_from_data
      (conferirMaterial clock2 qrCode0 S R (conferirMaterial clock1 qrCode0 S R state))
      (conferirMaterial clock1 qrCode0 S R state).
Proof.
  assert (Hsecond :
    conferirMaterial clock2 qrCode0 S R (conferirMaterial clock1 qrCode0 S R state)
      = conferirMaterial clock2 qrCode0 S R state).
  { unfold conferirMaterial.
    destruct (List.find _ (materials state)) as [material |] eqn:Hfind; simpl.
    - rewrite find_conferir_map, Hfind. simpl.
      unfold set_materials; simpl. f_equal. apply conferir_map_twice.
    - by rewrite Hfind. }
  split; [exact Hsecond |].
  rewrite Hsecond. unfold conferirMaterial, same_apart_from_data.
  destruct (List.find _ (materials state)) as [material |]; simpl.
  - split; [apply conferir_map_erase_data | by split].
  - by repeat split.
Qed.

(** ** [addMaterial] *)

(** [addMaterial] has no test of its argument: every call appends one
    material. *)
Lemma addMaterial_appends (env : AddEnv) (materialData : MaterialData)
    (state : MaterialsState) :
  materials (addMaterial env materialData state)
    = materials state ++ [newMaterial env materialData]
  ∧ setores (addMaterial env materialData state) = setores state
  ∧ loading (addMaterial env materialData state) = loading state.
Proof. by repeat split. Qed.

(** C7, as the claim has it, fails: the argument of [addMaterial] may hold
    an [ultimaConferencia], and the created material then has it (its
    status is [nao_conferido] all the same). *)
Lemma addMaterial_keeps_given_conferencia :
  ∃ m,
    materials
      (addMaterial
         (mkAddEnv 1706788800000 1706788800000 "K3X9QZ" "2024-02-01T12:00:00.000Z")
         {| d_nome := "Notebook Lenovo";
            d_bmp := "BMP004";
            d_setor := "TI";
            d_sala := "Sala Técnica";
            d_responsavel := "Ana Lima";
            d_status := conferido_correto;
            d_ultimaConferencia :=
              Some (mkConferencia "2024-01-20T09:00:00Z" "TI" "Sala Técnica") |}
         initialState) !! 3 = Some m
    ∧ status m = nao_conferido
    ∧ ultimaConferencia m
        = Some (mkConferencia "2024-01-20T09:00:00Z" "TI" "Sala Técnica").
Proof. eexists. split; [reflexivity |]. split; reflexivity. Qed.

(** C7, amended: for an argument that holds no [ultimaConferencia],
    [addMaterial] appends one material to the registry, after the
    materials that were there, which are unchanged; the new material has
    status [nao_conferido] (whatever status the argument holds), no
    [ultimaConferencia], an [id], a [qrCode] and a [dataCadastro] made
    from the clock and the random source only, and the other fields of
    the argument. *)
Theorem addMaterial_creates_nao_conferido (env : AddEnv)
    (materialData : MaterialData) (state : MaterialsState) :
  d_ultimaConferencia materialData = None →
  ∃ m,
    materials (addMaterial env materialData state) = materials state ++ [m]
    ∧ setores (addMaterial env materialData state) = setores state
    ∧ loading (addMaterial env materialData state) = loading state
    ∧ status m = nao_conferido
    ∧ ultimaConferencia m = None
    ∧ id m = pretty (date_now_id env)
    ∧ qrCode m = "QR_" +:+ pretty (date_now_qr env) +:+ "_HASH_" +:+ random_hash env
    ∧ dataCadastro m = iso_now env
    ∧ nome m = d_nome materialData
    ∧ bmp m = d_bmp materialData
    ∧ setor m = d_setor materialData
    ∧ sala m = d_sala materialData
    ∧ responsavel m = d_responsavel materialData.
Proof.
  intros Hnone. exists (newMaterial env materialData).
  simpl. by repeat split.
Qed.

Lemma addMaterial_creates_nao_conferido_witness :
  ∃ m,
    materials
      (addMaterial
         (mkAddEnv 1706788800000 1706788800001 "K3X9QZ" "2024-02-01T12:00:00.000Z")
         (mkMaterialData "Notebook Lenovo" "BMP004" "TI" "Sala Técnica" "Ana Lima"
            conferido_correto None)
         initialState) = mockMaterials ++ [m]
    ∧ status m = nao_conferido
    ∧ ultimaConferencia m = None
    ∧ id m = "1706788800000"
    ∧ qrCode m = "QR_1706788800001_HASH_K3X9QZ".
Proof.
  destruct (addMaterial_creates_nao_conferido
              (mkAddEnv 1706788800000 1706788800001 "K3X9QZ" "2024-02-01T12:00:00.000Z")
              (mkMaterialData "Notebook Lenovo" "BMP004" "TI" "Sala Técnica" "Ana Lima"
                 conferido_correto None)
              initialState eq_refl)
    as (m & Hms & _ & _ & Hstatus & Hconf & Hid & Hqr & _).
  exists m. split; [exact Hms |].
  split; [exact Hstatus |]. split; [exact Hconf |].
  split; [rewrite Hid | rewrite Hqr]; vm_compute; reflexivity.
Defined.

(** ** The form handlers of the page *)

(** C8, as the claim has it, fails: [addMaterial], the creation of the
    store, tests nothing, and a call with every field empty adds a
    material. *)
Lemma addMaterial_accepts_empty_fields :
  ∃ m,
    materials
      (addMaterial
         (mkAddEnv 1706788800000 1706788800001 "K3X9QZ" "2024-02-01T12:00:00.000Z")
         (mkMaterialData EmptyString EmptyString EmptyString EmptyString
            EmptyString nao_conferido None)
         initialState)
    = mockMaterials ++ [m]
    ∧ nome m = EmptyString ∧ bmp m = EmptyString
    ∧ setor m = EmptyString ∧ sala m = EmptyString.
Proof. eexists. split; [reflexivity |]. by repeat split. Qed.

(** C8, amended: [addMaterial] validates nothing and appends a material
    for every argument.  The test that [nome], [bmp], [setor] and [sala]
    are not empty is made by [handleAddMaterial] of the page: when one of
    them is empty in the form it returns at once, and the registry and
    the whole state of the page are as they were (no material is added,
    and nothing tells the failure apart: the handler returns no value and
    writes no state); when none is empty it calls [addMaterial] with the
    fields of the form, empties the form and closes the dialog. *)
Theorem handleAddMaterial_guards_addMaterial (env : AddEnv)
    (materialData : MaterialData)
    (page : MateriaisPage.PageState) (store : MaterialsState) :
  materials (addMaterial env materialData store)
    = materials store ++ [newMaterial env materialData]
  ∧ (MateriaisPage.f_nome (MateriaisPage.newMaterial page) = EmptyString
     ∨ MateriaisPage.f_bmp (MateriaisPage.newMaterial page) = EmptyString
     ∨ MateriaisPage.f_setor (MateriaisPage.newMaterial page) = EmptyString
     ∨ MateriaisPage.f_sala (MateriaisPage.newMaterial page) = EmptyString →
     MateriaisPage.handleAddMaterial env page store = (page, store))
  ∧ (MateriaisPage.f_nome (MateriaisPage.newMaterial page) ≠ EmptyString
     ∧ MateriaisPage.f_bmp (MateriaisPage.newMaterial page) ≠ EmptyString
     ∧ MateriaisPage.f_setor (MateriaisPage.newMaterial page) ≠ EmptyString
     ∧ MateriaisPage.f_sala (MateriaisPage.newMaterial page) ≠ EmptyString →
     MateriaisPage.handleAddMaterial env page store
       = ({| MateriaisPage.newMaterial := MateriaisPage.emptyForm;
             MateriaisPage.isAddDialogOpen := false;
             MateriaisPage.editingMaterial := MateriaisPage.editingMaterial page |},
          addMaterial env
            (MateriaisPage.form_data (MateriaisPage.newMaterial page)) store)).
Proof.
  split; [reflexivity |].
  unfold MateriaisPage.handleAddMaterial, MateriaisPage.missing_required,
    MateriaisPage.falsy.
  destruct (MateriaisPage.newMaterial page) as [n b s r resp]; simpl.
  case_eqb n EmptyString; case_eqb b EmptyString;
    case_eqb s EmptyString; case_eqb r EmptyString; simpl;
    (split; [intros Hempty | intros (Hn & Hb & Hs & Hr)]);
    first [ reflexivity | contradiction | intuition congruence ].
Qed.

Lemma handleAddMaterial_guards_addMaterial_witness :
  MateriaisPage.handleAddMaterial
    (mkAddEnv 1706788800000 1706788800001 "K3X9QZ" "2024-02-01T12:00:00.000Z")
    (MateriaisPage.mkPage
       (MateriaisPage.mkForm "Notebook Lenovo" EmptyString "TI" "Sala Técnica" "Ana Lima")
       true None)
    initialState
  = (MateriaisPage.mkPage
       (MateriaisPage.mkForm "Notebook Lenovo" EmptyString "TI" "Sala Técnica" "Ana Lima")
       true None,
     initialState)
  ∧ MateriaisPage.handleAddMaterial
      (mkAddEnv 1706788800000 1706788800001 "K3X9QZ" "2024-02-01T12:00:00.000Z")
      (MateriaisPage.mkPage
         (MateriaisPage.mkForm "Notebook Lenovo" "BMP004" "TI" "Sala Técnica" "Ana Lima")
         true None)
      initialState
    = (MateriaisPage.mkPage MateriaisPage.emptyForm false None,
       addMaterial
         (mkAddEnv 1706788800000 1706788800001 "K3X9QZ" "2024-02-01T12:00:00.000Z")
         (mkMaterialData "Notebook Lenovo" "BMP004" "TI" "Sala Técnica" "Ana Lima"
            nao_conferido None)
         initialState).
Proof.
  split.
  - apply (proj1 (proj2 (handleAddMaterial_guards_addMaterial _
                           (mkMaterialData EmptyString EmptyString EmptyString
                              EmptyString EmptyString nao_conferido None)
                           _ _))).
    simpl. right. left. reflexivity.
  - apply (proj2 (proj2 (handleAddMaterial_guards_addMaterial
                           (mkAddEnv 1706788800000 1706788800001 "K3X9QZ"
                              "2024-02-01T12:00:00.000Z")
                           (mkMaterialData EmptyString EmptyString EmptyString
                              EmptyString EmptyString nao_conferido None)
                           (MateriaisPage.mkPage
                              (MateriaisPage.mkForm "Notebook Lenovo" "BMP004" "TI"
                                 "Sala Técnica" "Ana Lima")
                              true None)
                           initialState))).
    simpl. repeat split; discriminate.
Defined.

(** ** [updateMaterial] *)

Lemma updateMaterial_lookup (id0 : string) (updates : MaterialUpdates)
    (state : MaterialsState) (i : nat) :
  materials (updateMaterial id0 updates state) !! i
  = (fun m => if String.eqb (id m) id0 then merge m updates else m)
      <$> materials state !! i.
Proof.
  unfold updateMaterial; simpl.
  generalize (materials state) as ms. intros ms. revert i.
  induction ms as [| m ms IH]; intros [| i]; simpl; auto.
Qed.

Lemma updateMaterial_unknown_id (id0 : string) (updates : MaterialUpdates)
    (state : MaterialsState) :
  (∀ m, m ∈ materials state → id m ≠ id0) →
  updateMaterial id0 updates state = state.
Proof.
  destruct state as [ms ss ld]. unfold updateMaterial, set_materials; simpl.
  intros Hno. f_equal.
  induction ms as [| m ms IH]; simpl; [reflexivity |].
  case_eqb (id m) id0.
  - exfalso. apply (Hno m); [left | assumption].
  - f_equal. apply IH. intros m' Hin. apply Hno. by right.
Qed.

(** C4, as the claim has it, fails: [updates] is a [Partial<Material>],
    and a key [id], [qrCode], [dataCadastro], [status] or
    [ultimaConferencia] in it replaces the material's. *)
Lemma updateMaterial_overwrites_protected_fields :
  ∃ m,
    materials
      (updateMaterial "3"
         {| u_id := Some "30";
            u_nome := None;
            u_bmp := None;
            u_setor := None;
            u_sala := None;
            u_responsavel := None;
            u_qrCode := Some "QR_001_HASH_ABC123";
            u_status := Some conferido_correto;
            u_ultimaConferencia := Some None;
            u_dataCadastro := Some "2025-05-05T05:05:05Z" |}
         initialState) !! 2 = Some m
    ∧ id m = "30"
    ∧ qrCode m = "QR_001_HASH_ABC123"
    ∧ status m = conferido_correto
    ∧ dataCadastro m = "2025-05-05T05:05:05Z"
    ∧ nome m = "Impressora HP LaserJet".
Proof. eexists. split; [reflexivity |]. by repeat split. Qed.

(** C4, amended: [updateMaterial id0 updates] leaves every material at
    its position; a material whose [id] is not [id0] is unchanged, and a
    material whose [id] is [id0] is replaced by its merge with [updates],
    in which each of [id], [qrCode], [dataCadastro], [status] and
    [ultimaConferencia] is unchanged when [updates] does not have that
    key.  When no material has the [id], the state is unchanged. *)
Theorem updateMaterial_merges (id0 : string) (updates : MaterialUpdates)
    (state : MaterialsState) :
  (∀ i m, materials state !! i = Some m →
     ∃ m',
       materials (updateMaterial id0 updates state) !! i = Some m'
       ∧ (id m ≠ id0 → m' = m)
       ∧ (id m = id0 → m' = merge m updates)
       ∧ (u_id updates = None → id m' = id m)
       ∧ (u_qrCode updates = None → qrCode m' = qrCode m)
       ∧ (u_dataCadastro updates = None → dataCadastro m' = dataCadastro m)
       ∧ (u_status updates = None → status m' = status m)
       ∧ (u_ultimaConferencia updates = None →
            ultimaConferencia m' = ultimaConferencia m))
  ∧ length (materials (updateMaterial id0 updates state))
      = length (materials state)
  ∧ ((∀ m, m ∈ materials state → id m ≠ id0) →
       updateMaterial id0 updates state = state).
Proof.
  split; [| split].
  - intros i m Hi. rewrite updateMaterial_lookup, Hi. simpl.
    eexists. split; [reflexivity |].
    case_eqb (id m) id0.
    + split; [by intros ? |]. split; [by intros _ |].
      repeat split; intros Hkey; simpl; by rewrite Hkey.
    + split; [by intros _ |]. split; [by intros ? |].
      repeat split; intros _; reflexivity.
  - unfold updateMaterial; simpl. apply length_map.
  - apply updateMaterial_unknown_id.
Qed.

Lemma updateMaterial_merges_witness :
  ∃ m',
    materials
      (updateMaterial "3"
         (mkMaterialUpdates None None None (Some "TI") (Some "Sala Técnica")
            None None None None None)
         initialState) !! 2 = Some m'
    ∧ setor m' = "TI"
    ∧ qrCode m' = "QR_003_HASH_GHI789"
    ∧ status m' = nao_conferido.
Proof.
  destruct (proj1 (updateMaterial_merges "3"
              (mkMaterialUpdates None None None (Some "TI") (Some "Sala Técnica")
                 None None None None None)
              initialState) 2
              (mkMaterial "3" "Impressora HP LaserJet" "BMP003" "RH" "Sala RH"
                 "Carlos Oliveira" "QR_003_HASH_GHI789" nao_conferido None
                 "2024-01-03T14:20:00Z") eq_refl)
    as (m' & Hlookup & _ & Hmerge & _ & Hqr & _ & Hstatus & _).
  exists m'. split; [exact Hlookup |].
  split; [by rewrite (Hmerge eq_refl) |].
  split; [exact (Hqr eq_refl) | exact (Hstatus eq_refl)].
Defined.

(** The page's [handleUpdateMaterial] passes [nome], [bmp], [setor],
    [sala] and [responsavel] only. *)
Lemma handleUpdateMaterial_updates (page : MateriaisPage.PageState)
    (store : MaterialsState) :
  snd (MateriaisPage.handleUpdateMaterial page store) = store
  ∨ ∃ id0 updates,
      snd (MateriaisPage.handleUpdateMaterial page store)
        = updateMaterial id0 updates store
      ∧ u_id updates = None ∧ u_qrCode updates = None
      ∧ u_dataCadastro updates = None ∧ u_status updates = None
      ∧ u_ultimaConferencia updates = None.
Proof.
  unfold MateriaisPage.handleUpdateMaterial.
  destruct (MateriaisPage.editingMaterial page) as [editing |]; [| by left].
  destruct (MateriaisPage.missing_required _); [by left |].
  right. eexists _, _. simpl. by repeat split.
Qed.

(** ** Invariants of the registry *)

Section Keys.

(** A field that the conference does not write. *)
Variable key : Material -> string.
Hypothesis key_conferido :
  ∀ m status0 now setor0 sala0, key (conferido m status0 now setor0 sala0) = key m.

Lemma keys_conferir_map (clock : nat -> string) (k : nat)
    (qrCode0 setor0 sala0 : string) (status0 : Status) (ms : list Material) :
  key <$> conferir_map clock k qrCode0 status0 setor0 sala0 ms = key <$> ms.
Proof.
  revert k. induction ms as [| m ms IH]; intros k; simpl; [reflexivity |].
  case_eqb (qrCode m) qrCode0; simpl; rewrite ?key_conferido; f_equal; apply IH.
Qed.

Lemma keys_conferirMaterial (clock : nat -> string)
    (qrCode0 setor0 sala0 : string) (state : MaterialsState) :
  key <$> materials (conferirMaterial clock qrCode0 setor0 sala0 state)
  = key <$> materials state.
Proof.
  unfold conferirMaterial.
  destruct (List.find _ _); simpl; [apply keys_conferir_map | reflexivity].
Qed.

Lemma keys_map (g : Material -> Material) (ms : list Material) :
  (∀ m, key (g m) = key m) → key <$> List.map g ms = key <$> ms.
Proof.
  intros Hg. induction ms as [| m ms IH]; simpl; [reflexivity |].
  rewrite Hg. f_equal. exact IH.
Qed.

Lemma keys_filter_elem (p : Material -> bool) (ms : list Material) (x : string) :
  x ∈ key <$> List.filter p ms → x ∈ key <$> ms.
Proof.
  induction ms as [| m ms IH]; simpl; [done |].
  destruct (p m); simpl.
  - rewrite !elem_of_cons. intros [-> | Hin]; [by left | right; by apply IH].
  - intros Hin. right. by apply IH.
Qed.

Lemma keys_filter_NoDup (p : Material -> bool) (ms : list Material) :
  NoDup (key <$> ms) → NoDup (key <$> List.filter p ms).
Proof.
  induction ms as [| m ms IH]; simpl; [done |].
  rewrite NoDup_cons. intros [Hnotin Hnodup].
  destruct (p m); simpl; [| by apply IH].
  apply NoDup_cons. split; [| by apply IH].
  intros Hin. apply Hnotin. by apply keys_filter_elem in Hin.
Qed.

Lemma keys_append_NoDup (ms : list Material) (m : Material) :
  NoDup (key <$> ms) → key m ∉ (key <$> ms) → NoDup (key <$> ms ++ [m]).
Proof.
  intros Hnodup Hfresh. rewrite fmap_app. apply NoDup_app.
  split; [assumption |]. split; [| apply NoDup_singleton].
  intros x Hx Hxm. simpl in Hxm. apply list_elem_of_singleton in Hxm.
  by subst.
Qed.

End Keys.

Lemma unique_keys_initialState : unique_keys initialState.
Proof.
  split; apply (bool_decide_unpack _); vm_compute; exact I.
Qed.

Section KeyUpdate.

(** A key of the material that an update writes when it has it. *)
Variable key : Material -> string.
Variable newkey : MaterialUpdates -> option string.
Hypothesis key_merge :
  ∀ m updates, key (merge m updates) = default (key m) (newkey updates).

Lemma key_updateMaterial_lookup (id0 : string) (updates : MaterialUpdates)
    (state : MaterialsState) (i : nat) (m : Material) :
  materials state !! i = Some m →
  (key <$> materials (updateMaterial id0 updates state)) !! i
  = Some (if String.eqb (id m) id0
          then default (key m) (newkey updates) else key m).
Proof.
  intros Hi. rewrite list_lookup_fmap, updateMaterial_lookup, Hi. simpl.
  destruct (String.eqb (id m) id0); by rewrite ?key_merge.
Qed.

Lemma key_updateMaterial_lookup_inv (id0 : string) (updates : MaterialUpdates)
    (state : MaterialsState) (i : nat) (x : string) :
  (key <$> materials (updateMaterial id0 updates state)) !! i = Some x →
  ∃ m, materials state !! i = Some m
       ∧ x = (if String.eqb (id m) id0
              then default (key m) (newkey updates) else key m).
Proof.
  rewrite list_lookup_fmap, updateMaterial_lookup.
  destruct (materials state !! i) as [m |]; simpl; [| discriminate].
  intros [= <-]. exists m. split; [reflexivity |].
  destruct (String.eqb (id m) id0); by rewrite ?key_merge.
Qed.

(** From a state where the key is unique, an update keeps it unique
    exactly when it is [key_update_ok]. *)
Lemma key_update_NoDup_iff (id0 : string) (updates : MaterialUpdates)
    (state : MaterialsState) :
  NoDup (key <$> materials state) →
  NoDup (key <$> materials (updateMaterial id0 updates state))
  ↔ key_update_ok key id0 (newkey updates) (materials state).
Proof.
  intros Hbefore. rewrite NoDup_alt in Hbefore.
  split.
  - intros Hafter value Hvalue. rewrite NoDup_alt in Hafter. split.
    + intros i j m m' Hi Hj Hm Hm'. apply (Hafter i j value).
      * rewrite (key_updateMaterial_lookup _ _ _ _ _ Hi), Hm, String.eqb_refl.
        by rewrite Hvalue.
      * rewrite (key_updateMaterial_lookup _ _ _ _ _ Hj), Hm', String.eqb_refl.
        by rewrite Hvalue.
    + intros m m' [i Hi]%list_elem_of_lookup [j Hj]%list_elem_of_lookup Hm Hm' Hkey.
      assert (i = j) as ->.
      { apply (Hafter i j value).
        - rewrite (key_updateMaterial_lookup _ _ _ _ _ Hi), Hm, String.eqb_refl.
          by rewrite Hvalue.
        - rewrite (key_updateMaterial_lookup _ _ _ _ _ Hj).
          apply String.eqb_neq in Hm'. by rewrite Hm', Hkey. }
      apply Hm'. congruence.
  - intros Hok. apply NoDup_alt. intros i j x Hi Hj.
    apply key_updateMaterial_lookup_inv in Hi as (m & Hi & Hx).
    apply key_updateMaterial_lookup_inv in Hj as (m' & Hj & Hx').
    destruct (newkey updates) as [value |] eqn:Hvalue; simpl in *.
    + destruct (Hok value eq_refl) as [Hone Hother].
      assert (Hin : m ∈ materials state) by (apply list_elem_of_lookup; by exists i).
      assert (Hin' : m' ∈ materials state) by (apply list_elem_of_lookup; by exists j).
      case_eqb (id m) id0; case_eqb (id m') id0.
      * by apply (Hone i j m m').
      * exfalso. apply (Hother m m' Hin Hin' E E0). congruence.
      * exfalso. apply (Hother m' m Hin' Hin E0 E). congruence.
      * apply (Hbefore i j x); rewrite list_lookup_fmap;
          [rewrite Hi | rewrite Hj]; simpl; congruence.
    + apply (Hbefore i j x); rewrite list_lookup_fmap;
        [rewrite Hi | rewrite Hj]; simpl;
        [destruct (String.eqb (id m) id0) | destruct (String.eqb (id m') id0)];
        congruence.
Qed.

End KeyUpdate.

(** From a state with unique keys, one call keeps the keys unique
    exactly when it is a call with fresh keys. *)
Lemma unique_keys_step_iff (state : MaterialsState) (op : Op) :
  unique_keys state →
  unique_keys (step state op) ↔ fresh_keys state op.
Proof.
  intros [Hbmp Hqr]. unfold unique_keys.
  destruct op as [env d | id0 u | id0 | clock q s r]; simpl.
  - rewrite !fmap_app, !NoDup_app. simpl.
    split.
    + intros [(_ & Hb & _) (_ & Hq & _)]. split.
      * intros Hin. apply (Hb _ Hin). by left.
      * intros Hin. apply (Hq _ Hin). by left.
    + intros [Hb Hq]. split; (split; [assumption |]);
        (split; [| apply NoDup_singleton]);
        intros x Hx Hxm; apply list_elem_of_singleton in Hxm; by subst.
  - rewrite (key_update_NoDup_iff bmp u_bmp (fun _ _ => eq_refl) id0 u state Hbmp).
    rewrite (key_update_NoDup_iff qrCode u_qrCode (fun _ _ => eq_refl) id0 u state Hqr).
    reflexivity.
  - split; [done |]. intros _. split; by apply keys_filter_NoDup.
  - rewrite !keys_conferirMaterial by auto. by split.
Qed.

(** With at most one material per [id], an update is [key_update_ok] as
    soon as the value it writes is not that of a material with another
    [id]. *)
Lemma key_update_ok_unique_ids (key : Material -> string) (id0 value : string)
    (ms : list Material) :
  NoDup (id <$> ms) →
  (∀ m', m' ∈ ms → id m' ≠ id0 → key m' ≠ value) →
  key_update_ok key id0 (Some value) ms.
Proof.
  intros Hids Hother v [= <-]. split.
  - intros i j m m' Hi Hj Hm Hm'.
    apply (NoDup_lookup (id <$> ms) i j id0); [assumption | |];
      rewrite list_lookup_fmap; [rewrite Hi | rewrite Hj]; simpl; congruence.
  - intros m m' _ Hin' _. by apply Hother.
Qed.

(** C3, as the claim has it, fails: [addMaterial] does not look at the
    [bmp] of the materials of the registry, so a creation with the [bmp]
    of the first mock material is a reachable state with two materials of
    the same [bmp]. *)
Lemma duplicate_bmp_reachable :
  reachable_by any_call
    (step initialState
       (OpAdd (mkAddEnv 1706788800000 1706788800001 "K3X9QZ" "2024-02-01T12:00:00.000Z")
          (mkMaterialData "Notebook Lenovo" "BMP001" "TI" "Sala Técnica" "Ana Lima"
             nao_conferido None)))
  ∧ ¬ unique_keys
        (step initialState
           (OpAdd (mkAddEnv 1706788800000 1706788800001 "K3X9QZ" "2024-02-01T12:00:00.000Z")
              (mkMaterialData "Notebook Lenovo" "BMP001" "TI" "Sala Técnica" "Ana Lima"
                 nao_conferido None))).
Proof.
  split.
  - apply reach_step; [apply reach_init | exact I].
  - intros [Hbmp _]. revert Hbmp.
    apply (bool_decide_eq_false_1 _). vm_compute. reflexivity.
Qed.

(** C3, amended: in every state reached from the initial state by calls
    of [addMaterial] whose [bmp] and generated [qrCode] no material of
    the registry has, of [updateMaterial] whose [bmp] and [qrCode], when
    the updates have them, go to one material at most and are not those
    of a material with another [id], of [deleteMaterial] and of
    [conferirMaterial], no two materials share a [bmp] and no two share a
    [qrCode]; and from such a state a further call keeps this exactly
    when it is one of these calls. *)
Theorem unique_keys_invariant (state : MaterialsState) :
  reachable_by fresh_keys state →
  unique_keys state
  ∧ ∀ op, unique_keys (step state op) ↔ fresh_keys state op.
Proof.
  intros Hreach.
  assert (Hunique : unique_keys state).
  { induction Hreach as [| state op Hreach IH Hfresh].
    - apply unique_keys_initialState.
    - by apply unique_keys_step_iff. }
  split; [exact Hunique |].
  intros op. by apply unique_keys_step_iff.
Qed.

Lemma unique_keys_invariant_witness :
  unique_keys
    (run [ OpAdd (mkAddEnv 1706788800000 1706788800001 "K3X9QZ" "2024-02-01T12:00:00.000Z")
             (mkMaterialData "Notebook Lenovo" "BMP004" "TI" "Sala Técnica" "Ana Lima"
                nao_conferido None);
           OpUpdate "3"
             (MateriaisPage.form_updates
                (MateriaisPage.mkForm "Impressora HP LaserJet" "BMP003" "RH"
                   "Arquivo" "Carlos Oliveira"));
           OpConferir (fun _ => "2024-03-01T12:00:00.000Z")
             "QR_1706788800001_HASH_K3X9QZ" "TI" "Sala Técnica";
           OpDelete "2" ]
       initialState).
Proof.
  refine (proj1 (unique_keys_invariant _ _)). unfold run, fold_left.
  apply reach_step; [| exact I].
  apply reach_step; [| exact I].
  apply reach_step.
  - apply reach_step; [apply reach_init |].
    split; apply (bool_decide_unpack _); vm_compute; exact I.
  - split; [| intros value Hvalue; discriminate Hvalue].
    apply key_update_ok_unique_ids.
    + apply (bool_decide_unpack _). vm_compute. exact I.
    + apply (proj1 (Forall_forall
                      (fun m' : Material => id m' ≠ "3" → bmp m' ≠ "BMP003") _)).
      apply (bool_decide_unpack _). vm_compute. exact I.
Defined.

(** Every sequence of calls ends in a state of [reachable_by any_call]. *)
Lemma reachable_by_run (ops : list Op) :
  reachable_by any_call (run ops initialState).
Proof.
  unfold run. rewrite <- (rev_involutive ops).
  induction (rev ops) as [| op ops' IH]; simpl; [apply reach_init |].
  rewrite fold_left_app. simpl. by apply reach_step.
Qed.

(** An element of the mapped array is an element of the array or the
    [conferido] of one. *)
Lemma elem_of_conferir_map (clock : nat -> string) (k : nat)
    (qrCode0 setor0 sala0 : string) (status0 : Status)
    (ms : list Material) (m' : Material) :
  m' ∈ conferir_map clock k qrCode0 status0 setor0 sala0 ms →
  m' ∈ ms ∨ ∃ m now, m' = conferido m status0 now setor0 sala0.
Proof.
  revert k. induction ms as [| m ms IH]; intros k; simpl; [by left |].
  case_eqb (qrCode m) qrCode0; rewrite elem_of_cons; intros [-> | Hin].
  - right. by eexists _, _.
  - destruct (IH _ Hin) as [Hms | Hnew]; [left; by right | by right].
  - left. by left.
  - destruct (IH _ Hin) as [Hms | Hnew]; [left; by right | by right].
Qed.

Lemma unconferred_initialState : unconferred_is_nao_conferido initialState.
Proof.
  intros m Hm. simpl in Hm. unfold mockMaterials in Hm.
  repeat (apply elem_of_cons in Hm as [-> | Hm]); simpl;
    first [ discriminate | reflexivity | by apply elem_of_nil in Hm ].
Qed.

(** One call that does not write [status] or [ultimaConferencia] through
    an update keeps the materials without conference [nao_conferido]. *)
Lemma unconferred_step (state : MaterialsState) (op : Op) :
  conference_untouched state op →
  unconferred_is_nao_conferido state →
  unconferred_is_nao_conferido (step state op).
Proof.
  intros Hop Hinv m'.
  destruct op as [env d | id0 u | id0 | clock q s r]; simpl in *.
  - rewrite elem_of_app, list_elem_of_singleton.
    intros [Hin | ->]; [by apply Hinv | reflexivity].
  - destruct Hop as [Hstatus Hconf].
    rewrite list_elem_of_In, in_map_iff.
    intros (m & <- & Hin%list_elem_of_In).
    destruct (String.eqb (id m) id0); simpl; [| by apply Hinv].
    rewrite Hstatus, Hconf. simpl. by apply Hinv.
  - rewrite list_elem_of_In, filter_In.
    intros [Hin%list_elem_of_In _]. by apply Hinv.
  - unfold conferirMaterial.
    destruct (List.find _ _) as [material |]; simpl; [| by apply Hinv].
    intros [Hin | (m & now & ->)]%elem_of_conferir_map; [by apply Hinv |].
    discriminate.
Qed.

(** C9, as the claim has it, fails: an update that has the key [status]
    gives a checked status to a material that was never scanned. *)
Lemma checked_without_conferencia_reachable :
  reachable_by any_call
    (step initialState
       (OpUpdate "3"
          (mkMaterialUpdates None None None None None None None
             (Some conferido_correto) None None)))
  ∧ ¬ unconferred_is_nao_conferido
        (step initialState
           (OpUpdate "3"
              (mkMaterialUpdates None None None None None None None
                 (Some conferido_correto) None None))).
Proof.
  split.
  - apply reach_step; [apply reach_init | exact I].
  - intros Hinv.
    specialize (Hinv (mkMaterial "3" "Impressora HP LaserJet" "BMP003" "RH"
                        "Sala RH" "Carlos Oliveira" "QR_003_HASH_GHI789"
                        conferido_correto None "2024-01-03T14:20:00Z")).
    discriminate Hinv; [| reflexivity].
    simpl. do 2 right. left.
Qed.

(** C9, amended: in every state reached from the initial state by calls
    of [addMaterial], [deleteMaterial], [conferirMaterial], and of
    [updateMaterial] whose updates have neither [status] nor
    [ultimaConferencia], every material that has no [ultimaConferencia]
    has status [nao_conferido]. *)
Theorem unconferred_invariant (state : MaterialsState) :
  reachable_by conference_untouched state →
  unconferred_is_nao_conferido state.
Proof.
  induction 1 as [| state op Hreach IH Hop].
  - apply unconferred_initialState.
  - by apply unconferred_step.
Qed.

Lemma unconferred_invariant_witness :
  unconferred_is_nao_conferido
    (run [ OpUpdate "3"
             (mkMaterialUpdates None None None (Some "TI") (Some "Sala Técnica")
                None None None None None);
           OpConferir (fun _ => "2024-03-01T12:00:00.000Z")
             "QR_002_HASH_DEF456" "RH" "Arquivo" ]
       initialState).
Proof.
  apply unconferred_invariant. unfold run, fold_left.
  apply reach_step; [| exact I].
  apply reach_step; [apply reach_init |].
  split; reflexivity.
Defined.

(** ** The mock login *)

Lemma accepted_iff (credentials : Auth.Credentials) :
  Auth.accepted credentials = true
  ↔ Auth.cred_login credentials = "admin" ∧ Auth.senha credentials = "123456".
Proof.
  unfold Auth.accepted.
  rewrite andb_true_iff, !String.eqb_eq. reflexivity.
Qed.

(** Whatever the calls, a stored user is the mock administrator, and the
    flag is set exactly when a user is stored. *)
Lemma calls_stored_user (cs : list Auth.Call) :
  (Auth.calls cs Auth.initialState = Auth.initialState)
  ∨ (Auth.calls cs Auth.initialState
       = {| Auth.user := Some Auth.mockUser; Auth.isAuthenticated := true |}).
Proof.
  unfold Auth.calls. rewrite <- (rev_involutive cs).
  induction (rev cs) as [| c cs' IH]; simpl; [by left |].
  rewrite fold_left_app. simpl.
  destruct c as [credentials |]; simpl; [| by left].
  unfold Auth.login. destruct (Auth.accepted credentials); simpl; [by right |].
  exact IH.
Qed.

(** C10: [login] answers [true] exactly when the login is ['admin'] and
    the password is ['123456']; it then stores the mock user, whose
    [tipo] is [admin], and sets [isAuthenticated]; with any other
    credentials it answers [false] and the state is the one it was called
    in.  After any sequence of logins and logouts from the initial state,
    a stored user has [tipo] [admin], and [isAuthenticated] is set only
    with such a user stored. *)
Theorem login_accepts_admin_only (credentials : Auth.Credentials)
    (state : Auth.AuthState) :
  (snd (Auth.login credentials state) = true
     ↔ Auth.cred_login credentials = "admin" ∧ Auth.senha credentials = "123456")
  ∧ (Auth.cred_login credentials = "admin" ∧ Auth.senha credentials = "123456" →
       Auth.isAuthenticated (fst (Auth.login credentials state)) = true
       ∧ ∃ u, Auth.user (fst (Auth.login credentials state)) = Some u
              ∧ Auth.tipo u = Auth.admin)
  ∧ (¬ (Auth.cred_login credentials = "admin" ∧ Auth.senha credentials = "123456") →
       Auth.login credentials state = (state, false))
  ∧ (∀ cs u,
       Auth.user (Auth.calls cs Auth.initialState) = Some u →
       Auth.tipo u = Auth.admin)
  ∧ (∀ cs,
       Auth.isAuthenticated (Auth.calls cs Auth.initialState) = true →
       ∃ u, Auth.user (Auth.calls cs Auth.initialState) = Some u
            ∧ Auth.tipo u = Auth.admin).
Proof.
  pose proof (accepted_iff credentials) as Hacc.
  unfold Auth.login.
  destruct (Auth.accepted credentials); simpl.
  - split; [tauto |]. split.
    { intros _. split; [reflexivity |]. by exists Auth.mockUser. }
    split; [intros Hnot; exfalso; apply Hnot; by apply Hacc |].
    split.
    + intros cs u. destruct (calls_stored_user cs) as [-> | ->]; simpl;
        [discriminate | by intros [= <-]].
    + intros cs. destruct (calls_stored_user cs) as [-> | ->]; simpl;
        [discriminate | intros _; by exists Auth.mockUser].
  - split.
    { split; [discriminate |]. intros H. apply Hacc in H. discriminate. }
    split; [intros H; apply Hacc in H; discriminate |].
    split; [reflexivity |].
    split.
    + intros cs u. destruct (calls_stored_user cs) as [-> | ->]; simpl;
        [discriminate | by intros [= <-]].
    + intros cs. destruct (calls_stored_user cs) as [-> | ->]; simpl;
        [discriminate | intros _; by exists Auth.mockUser].
Qed.

Lemma login_accepts_admin_only_witness :
  Auth.login (Auth.mkCredentials "operador" "123456")
    (Auth.mkAuth
       (Some (Auth.mkUser "1" "admin" "Administrador" Auth.admin)) true)
  = (Auth.mkAuth
       (Some (Auth.mkUser "1" "admin" "Administrador" Auth.admin)) true,
     false).
Proof.
  apply (proj1 (proj2 (proj2 (login_accepts_admin_only _ _)))).
  simpl. intros [Hlogin _]. discriminate Hlogin.
Defined.

(** * Further properties of the store and of the pages *)

(** ** [deleteMaterial] *)

Lemma filter_sublist (p : Material -> bool) (ms : list Material) :
  sublist (List.filter p ms) ms.
Proof.
  induction ms as [| m ms IH]; simpl; [constructor |].
  destruct (p m); by constructor.
Qed.

Lemma filter_all (p : Material -> bool) (ms : list Material) :
  (∀ m, m ∈ ms → p m = true) → List.filter p ms = ms.
Proof.
  induction ms as [| m ms IH]; intros Hall; simpl; [reflexivity |].
  rewrite (Hall m) by left. f_equal. apply IH.
  intros m' Hin. apply Hall. by right.
Qed.

Lemma elem_of_deleteMaterial (id0 : string) (state : MaterialsState) (m : Material) :
  m ∈ materials (deleteMaterial id0 state) ↔ m ∈ materials state ∧ id m ≠ id0.
Proof.
  unfold deleteMaterial; simpl.
  rewrite !list_elem_of_In, filter_In, negb_true_iff, String.eqb_neq.
  reflexivity.
Qed.

(** X1: [deleteMaterial id0] keeps exactly the materials whose [id] is
    not [id0], in the order they had, and writes nothing else; a second
    deletion of the same [id] changes nothing, and so does the deletion
    of an [id] that no material has. *)
Theorem deleteMaterial_removes_id (id0 : string) (state : MaterialsState) :
  (∀ m, m ∈ materials (deleteMaterial id0 state)
        ↔ m ∈ materials state ∧ id m ≠ id0)
  ∧ sublist (materials (deleteMaterial id0 state)) (materials state)
  ∧ setores (deleteMaterial id0 state) = setores state
  ∧ loading (deleteMaterial id0 state) = loading state
  ∧ deleteMaterial id0 (deleteMaterial id0 state) = deleteMaterial id0 state
  ∧ ((∀ m, m ∈ materials state → id m ≠ id0) → deleteMaterial id0 state = state).
Proof.
  split; [intros m; apply elem_of_deleteMaterial |].
  split; [apply filter_sublist |].
  do 2 (split; [reflexivity |]).
  split.
  - unfold deleteMaterial at 1. unfold set_materials. simpl.
    unfold deleteMaterial, set_materials; simpl. f_equal.
    apply filter_all. intros m Hin.
    apply list_elem_of_In, filter_In in Hin. tauto.
  - intros Hno. destruct state as [ms ss ld].
    unfold deleteMaterial, set_materials; simpl. f_equal.
    apply filter_all. intros m Hin.
    apply negb_true_iff, String.eqb_neq. by apply Hno.
Qed.

Lemma deleteMaterial_removes_id_witness :
  deleteMaterial "7" initialState = initialState.
Proof.
  apply (proj2 (proj2 (proj2 (proj2 (proj2 (deleteMaterial_removes_id "7" initialState)))))).
  apply Forall_forall. apply (bool_decide_unpack _). vm_compute. exact I.
Defined.

(** X2: a creation followed by the deletion of the [id] it gave returns
    to the state before the creation, when no material had that [id]. *)
Theorem addMaterial_then_deleteMaterial (env : AddEnv)
    (materialData : MaterialData) (state : MaterialsState) :
  (∀ m, m ∈ materials state → id m ≠ pretty (date_now_id env)) →
  deleteMaterial (pretty (date_now_id env)) (addMaterial env materialData state)
    = state.
Proof.
  intros Hfresh. destruct state as [ms ss ld].
  unfold deleteMaterial, addMaterial, set_materials; simpl in *. f_equal.
  rewrite List.filter_app. simpl. rewrite String.eqb_refl. simpl.
  rewrite app_nil_r. apply filter_all. intros m Hin.
  apply negb_true_iff, String.eqb_neq. by apply Hfresh.
Qed.

Lemma addMaterial_then_deleteMaterial_witness :
  deleteMaterial "1706788800000"
    (addMaterial
       (mkAddEnv 1706788800000 1706788800001 "K3X9QZ" "2024-02-01T12:00:00.000Z")
       (mkMaterialData "Notebook Lenovo" "BMP004" "TI" "Sala Técnica" "Ana Lima"
          nao_conferido None)
       initialState)
  = initialState.
Proof.
  apply (addMaterial_then_deleteMaterial
           (mkAddEnv 1706788800000 1706788800001 "K3X9QZ" "2024-02-01T12:00:00.000Z")).
  apply Forall_forall. apply (bool_decide_unpack _). vm_compute. exact I.
Defined.

(** X3: two created materials have the same [id] exactly when their
    creations read the same millisecond; the deletion of that [id] then
    removes both. *)
Theorem same_millisecond_same_id (env1 env2 : AddEnv)
    (d1 d2 : MaterialData) (state : MaterialsState) :
  (id (newMaterial env1 d1) = id (newMaterial env2 d2)
     ↔ date_now_id env1 = date_now_id env2)
  ∧ (date_now_id env1 = date_now_id env2 →
       deleteMaterial (id (newMaterial env1 d1))
         (addMaterial env2 d2 (addMaterial env1 d1 state))
       = deleteMaterial (id (newMaterial env1 d1)) state).
Proof.
  split.
  - simpl. split; [apply (inj pretty) | by intros ->].
  - intros Heq. unfold deleteMaterial, addMaterial, set_materials; simpl.
    f_equal. rewrite !List.filter_app. simpl.
    rewrite Heq, String.eqb_refl. simpl. by rewrite !app_nil_r.
Qed.

Lemma same_millisecond_same_id_witness :
  deleteMaterial "1706788800000"
    (addMaterial
       (mkAddEnv 1706788800000 1706788800003 "ZZZZZZ" "2024-02-01T12:00:00.002Z")
       (mkMaterialData "Mouse" "BMP005" "TI" "Sala Técnica" "Ana Lima"
          nao_conferido None)
       (addMaterial
          (mkAddEnv 1706788800000 1706788800001 "K3X9QZ" "2024-02-01T12:00:00.000Z")
          (mkMaterialData "Notebook Lenovo" "BMP004" "TI" "Sala Técnica" "Ana Lima"
             nao_conferido None)
          initialState))
  = deleteMaterial "1706788800000" initialState.
Proof.
  exact (proj2 (same_millisecond_same_id
                  (mkAddEnv 1706788800000 1706788800001 "K3X9QZ" "2024-02-01T12:00:00.000Z")
                  (mkAddEnv 1706788800000 1706788800003 "ZZZZZZ" "2024-02-01T12:00:00.002Z")
                  (mkMaterialData "Notebook Lenovo" "BMP004" "TI" "Sala Técnica" "Ana Lima"
                     nao_conferido None)
                  (mkMaterialData "Mouse" "BMP005" "TI" "Sala Técnica" "Ana Lima"
                     nao_conferido None)
                  initialState) eq_refl).
Defined.

(** ** The [id]s *)

Lemma unique_ids_step (state : MaterialsState) (op : Op) :
  fresh_ids state op → unique_ids state → unique_ids (step state op).
Proof.
  unfold unique_ids. intros Hfresh Hids.
  destruct op as [env d | id0 u | id0 | clock q s r]; simpl in *.
  - by apply keys_append_NoDup.
  - rewrite keys_map; [assumption |].
    intros m. destruct (String.eqb (id m) id0); simpl; by rewrite ?Hfresh.
  - by apply keys_filter_NoDup.
  - rewrite keys_conferirMaterial; by auto.
Qed.

(** X4: in every state reached from the initial state by creations at a
    millisecond whose decimal writing no material has as [id], updates
    without the key [id], deletions and conferences, no two materials
    share an [id]. *)
Theorem unique_ids_invariant (state : MaterialsState) :
  reachable_by fresh_ids state → unique_ids state.
Proof.
  induction 1 as [| state op Hreach IH Hfresh].
  - apply (bool_decide_unpack _). vm_compute. exact I.
  - by apply unique_ids_step.
Qed.

Lemma unique_ids_invariant_witness :
  unique_ids
    (run [ OpAdd (mkAddEnv 1706788800000 1706788800001 "K3X9QZ" "2024-02-01T12:00:00.000Z")
             (mkMaterialData "Notebook Lenovo" "BMP004" "TI" "Sala Técnica" "Ana Lima"
                nao_conferido None);
           OpUpdate "1706788800000"
             (mkMaterialUpdates None None None (Some "RH") (Some "Arquivo")
                None None None None None) ]
       initialState).
Proof.
  apply unique_ids_invariant. unfold run, fold_left.
  apply reach_step; [| reflexivity].
  apply reach_step; [apply reach_init |].
  apply (bool_decide_unpack _). vm_compute. exact I.
Defined.

Lemma filter_other_ids_length (id0 : string) (ms : list Material) (i : nat) (m : Material) :
  NoDup (id <$> ms) → ms !! i = Some m → id m = id0 →
  S (length (List.filter (fun material => negb (String.eqb (id material) id0)) ms))
  = length ms.
Proof.
  revert i. induction ms as [| m0 ms IH]; intros i Hnodup Hi Hid; [discriminate |].
  simpl in Hnodup. apply NoDup_cons in Hnodup as [Hnotin Hnodup].
  destruct i as [| i]; simpl in *.
  - injection Hi as ->. rewrite Hid, String.eqb_refl. simpl. f_equal.
    rewrite filter_all; [reflexivity |].
    intros m' Hin. apply negb_true_iff, String.eqb_neq. intros Heq.
    apply Hnotin. apply list_elem_of_fmap. exists m'. split; [congruence | assumption].
  - case_eqb (id m0) id0; simpl.
    + exfalso. apply Hnotin. apply list_elem_of_fmap. exists m.
      split; [congruence |]. apply list_elem_of_lookup. by exists i.
    + f_equal. by apply (IH i).
Qed.

(** X5: when no two materials share an [id], the deletion of the [id] of
    a material of the registry removes one material exactly, and an
    update with that [id] leaves every other position as it was. *)
Theorem unique_id_touches_one (updates : MaterialUpdates)
    (state : MaterialsState) (i : nat) (m : Material) :
  unique_ids state →
  materials state !! i = Some m →
  S (length (materials (deleteMaterial (id m) state))) = length (materials state)
  ∧ materials (updateMaterial (id m) updates state) !! i = Some (merge m updates)
  ∧ ∀ j, j ≠ i →
      materials (updateMaterial (id m) updates state) !! j = materials state !! j.
Proof.
  intros Hids Hi. split; [| split].
  - unfold deleteMaterial; simpl. by apply (filter_other_ids_length _ _ i m).
  - rewrite updateMaterial_lookup, Hi. simpl. by rewrite String.eqb_refl.
  - intros j Hj. rewrite updateMaterial_lookup.
    destruct (materials state !! j) as [m' |] eqn:Hm'; simpl; [| reflexivity].
    case_eqb (id m') (id m); [| reflexivity].
    exfalso. apply Hj.
    apply (NoDup_lookup (id <$> materials state) j i (id m)); [assumption | |].
    + rewrite list_lookup_fmap, Hm'. simpl. by rewrite E.
    + by rewrite list_lookup_fmap, Hi.
Qed.

Lemma unique_id_touches_one_witness :
  S (length (materials (deleteMaterial "2" initialState))) = 3
  ∧ materials
      (updateMaterial "2"
         (mkMaterialUpdates None None None (Some "RH") (Some "Arquivo")
            None None None None None)
         initialState) !! 0
    = mockMaterials !! 0.
Proof.
  destruct (unique_id_touches_one
              (mkMaterialUpdates None None None (Some "RH") (Some "Arquivo")
                 None None None None None)
              initialState 1
              (mkMaterial "2" ("Monitor LG 24" +:+ inch_mark) "BMP002"
                 "Administração" "Sala 101" "Maria Santos" "QR_002_HASH_DEF456"
                 conferido_outro_setor
                 (Some (mkConferencia "2024-01-15T11:15:00Z" "TI" "Sala Técnica"))
                 "2024-01-02T09:15:00Z"))
    as (Hdel & _ & Hother).
  - apply (bool_decide_unpack _). vm_compute. exact I.
  - reflexivity.
  - split; [exact Hdel |]. apply (Hother 0). lia.
Defined.

(** ** More on [conferirMaterial] *)

(** X6: a conference never makes a material [nao_conferido]: a material
    that has this status after the call stands at the same position
    before the call, is the same record, and has another [qrCode] than
    the scanned one. *)
Theorem conferirMaterial_never_unchecks (clock : nat -> string)
    (qrCode0 S R : string) (state : MaterialsState) (i : nat) (m' : Material) :
  materials (conferirMaterial clock qrCode0 S R state) !! i = Some m' →
  status m' = nao_conferido →
  materials state !! i = Some m' ∧ qrCode m' ≠ qrCode0.
Proof.
  unfold conferirMaterial.
  destruct (List.find _ (materials state)) as [material |] eqn:Hfind; simpl.
  - set (status0 := if String.eqb (setor material) S && String.eqb (sala material) R
                     then conferido_correto else conferido_outro_setor).
    intros Hi Hstatus.
    assert (Hlen : i < length (materials state)).
    { rewrite <- (conferir_map_length clock qrCode0 S R status0 (materials state) 0).
      by apply lookup_lt_Some in Hi. }
    destruct (lookup_lt_is_Some_2 _ _ Hlen) as [m Hm].
    destruct (conferir_map_lookup clock qrCode0 S R status0 _ 0 i m Hm) as [now Hnow].
    rewrite Hnow in Hi. injection Hi as <-.
    case_eqb (qrCode m) qrCode0.
    + simpl in Hstatus. unfold status0 in Hstatus.
      destruct (String.eqb (setor material) S && String.eqb (sala material) R);
        discriminate.
    + by split.
  - intros Hi _. split; [assumption |].
    intros Heq. apply find_qrCode_is_Some with (i := i) (m := m') (ms := materials state) in Heq;
      [| assumption].
    rewrite Hfind in Heq. by destruct Heq.
Qed.

Lemma conferirMaterial_never_unchecks_witness :
  materials initialState !! 2
  = Some (mkMaterial "3" "Impressora HP LaserJet" "BMP003" "RH" "Sala RH"
            "Carlos Oliveira" "QR_003_HASH_GHI789" nao_conferido None
            "2024-01-03T14:20:00Z")
  ∧ "QR_003_HASH_GHI789" ≠ "QR_001_HASH_ABC123".
Proof.
  apply (conferirMaterial_never_unchecks (fun _ => "2024-03-01T12:00:00.000Z")
           "QR_001_HASH_ABC123" "RH" "Arquivo" initialState 2
           (mkMaterial "3" "Impressora HP LaserJet" "BMP003" "RH" "Sala RH"
              "Carlos Oliveira" "QR_003_HASH_GHI789" nao_conferido None
              "2024-01-03T14:20:00Z"));
    reflexivity.
Defined.

Lemma find_first_index (qrCode0 : string) (ms : list Material) (k : nat)
    (first : Material) :
  ms !! k = Some first → qrCode first = qrCode0 →
  (∀ j m, j < k → ms !! j = Some m → qrCode m ≠ qrCode0) →
  List.find (fun m => String.eqb (qrCode m) qrCode0) ms = Some first.
Proof.
  revert k. induction ms as [| m0 ms IH]; intros k Hk Hq Hbefore; [discriminate |].
  simpl. destruct k as [| k]; simpl in Hk.
  - injection Hk as ->. by rewrite Hq, String.eqb_refl.
  - case_eqb (qrCode m0) qrCode0.
    + exfalso. apply (Hbefore 0 m0); [lia | reflexivity | assumption].
    + apply (IH k); [assumption | assumption |].
      intros j m Hj Hm. apply (Hbefore (S j) m); [lia | assumption].
Qed.

(** X7: when several materials have the scanned [qrCode], the first of
    them in the registry decides for all: after the call every material
    with that code has the status computed from the [setor] and [sala]
    of the first one, and a conference at the observed place. *)
Theorem conferirMaterial_first_match_decides (clock : nat -> string)
    (qrCode0 S R : string) (state : MaterialsState) (k : nat) (first : Material) :
  materials state !! k = Some first →
  qrCode first = qrCode0 →
  (∀ j m, j < k → materials state !! j = Some m → qrCode m ≠ qrCode0) →
  ∀ i m',
    materials (conferirMaterial clock qrCode0 S R state) !! i = Some m' →
    qrCode m' = qrCode0 →
    status m'
      = (if String.eqb (setor first) S && String.eqb (sala first) R
         then conferido_correto else conferido_outro_setor)
    ∧ ∃ now,
        ultimaConferencia m'
          = Some {| data := now; setorEncontrado := S; salaEncontrada := R |}.
Proof.
  intros Hk Hq Hbefore i m'. unfold conferirMaterial.
  rewrite (find_first_index _ _ k first Hk Hq Hbefore). simpl.
  set (status0 := if String.eqb (setor first) S && String.eqb (sala first) R
                  then conferido_correto else conferido_outro_setor).
  intros Hi Hcode.
  assert (Hlen : i < length (materials state)).
  { rewrite <- (conferir_map_length clock qrCode0 S R status0 (materials state) 0).
    by apply lookup_lt_Some in Hi. }
  destruct (lookup_lt_is_Some_2 _ _ Hlen) as [m Hm].
  destruct (conferir_map_lookup clock qrCode0 S R status0 _ 0 i m Hm) as [now Hnow].
  rewrite Hnow in Hi. injection Hi as <-.
  case_eqb (qrCode m) qrCode0; [| contradiction].
  simpl. split; [reflexivity | by exists now].
Qed.

Lemma conferirMaterial_first_match_decides_witness :
  ∃ m',
    materials
      (conferirMaterial (fun _ => "2024-03-01T12:00:00.000Z")
         "QR_001_HASH_ABC123" "RH" "Sala RH"
         (updateMaterial "3"
            (mkMaterialUpdates None None None None None None
               (Some "QR_001_HASH_ABC123") None None None)
            initialState)) !! 2 = Some m'
    ∧ setor m' = "RH" ∧ sala m' = "Sala RH"
    ∧ status m' = conferido_outro_setor.
Proof.
  eexists. split; [reflexivity |]. split; [reflexivity |]. split; [reflexivity |].
  apply (conferirMaterial_first_match_decides
           (fun _ => "2024-03-01T12:00:00.000Z") "QR_001_HASH_ABC123" "RH" "Sala RH"
           (updateMaterial "3"
              (mkMaterialUpdates None None None None None None
                 (Some "QR_001_HASH_ABC123") None None None)
              initialState)
           0
           (mkMaterial "1" "Computador Desktop Dell" "BMP001" "TI" "Escritório TI"
              "João Silva" "QR_001_HASH_ABC123" conferido_correto
              (Some (mkConferencia "2024-01-15T10:30:00Z" "TI" "Escritório TI"))
              "2024-01-01T08:00:00Z")
           eq_refl eq_refl
           (fun j m Hj => match Nat.nlt_0_r j Hj with end)
           2 _ eq_refl eq_refl).
Defined.

(** The search for a code does not see the conference of another code. *)
Lemma find_conferir_map_other (clock : nat -> string) (k : nat)
    (qrCode0 qrCode1 S R : string) (status0 : Status) (ms : list Material) :
  qrCode0 ≠ qrCode1 →
  List.find (fun m => String.eqb (qrCode m) qrCode1)
    (conferir_map clock k qrCode0 status0 S R ms)
  = List.find (fun m => String.eqb (qrCode m) qrCode1) ms.
Proof.
  intros Hne. revert k.
  induction ms as [| m ms IH]; intros k; simpl; [reflexivity |].
  case_eqb (qrCode m) qrCode0; simpl.
  - case_eqb (qrCode m) qrCode1; [congruence | apply IH].
  - case_eqb (qrCode m) qrCode1; [reflexivity | apply IH].
Qed.

(** The maps of two conferences of different codes commute. *)
Lemma conferir_map_commute (clockA clockB : nat -> string) (kA kB : nat)
    (codeA codeB SA RA SB RB : string) (statusA statusB : Status)
    (ms : list Material) :
  codeA ≠ codeB →
  conferir_map clockA kA codeA statusA SA RA
    (conferir_map clockB kB codeB statusB SB RB ms)
  = conferir_map clockB kB codeB statusB SB RB
      (conferir_map clockA kA codeA statusA SA RA ms).
Proof.
  intros Hne. revert kA kB.
  induction ms as [| m ms IH]; intros kA kB; simpl; [reflexivity |].
  case_eqb (qrCode m) codeB; case_eqb (qrCode m) codeA; simpl;
    try congruence.
  - apply String.eqb_neq in E0. rewrite E0.
    rewrite (proj2 (String.eqb_eq _ _) E). f_equal. apply IH.
  - apply String.eqb_neq in E. rewrite E.
    rewrite (proj2 (String.eqb_eq _ _) E0). f_equal. apply IH.
  - apply String.eqb_neq in E, E0. rewrite E, E0. f_equal. apply IH.
Qed.

(** X8: two conferences of different codes commute: the state after both
    does not depend on which of the two scans came first. *)
Theorem conferirMaterial_commute (clockA clockB : nat -> string)
    (codeA codeB SA RA SB RB : string) (state : MaterialsState) :
  codeA ≠ codeB →
  conferirMaterial clockA codeA SA RA (conferirMaterial clockB codeB SB RB state)
  = conferirMaterial clockB codeB SB RB (conferirMaterial clockA codeA SA RA state).
Proof.
  intros Hne. unfold conferirMaterial.
  destruct (List.find (fun m => String.eqb (qrCode m) codeB) (materials state))
    as [mB |] eqn:HB;
  destruct (List.find (fun m => String.eqb (qrCode m) codeA) (materials state))
    as [mA |] eqn:HA; simpl;
  rewrite ?find_conferir_map_other by congruence;
  rewrite ?HA, ?HB; simpl; try reflexivity.
  unfold set_materials; simpl. f_equal. by apply conferir_map_commute.
Qed.

Lemma conferirMaterial_commute_witness :
  conferirMaterial (fun _ => "2024-03-01T12:00:00.000Z")
    "QR_001_HASH_ABC123" "TI" "Escritório TI"
    (conferirMaterial (fun _ => "2024-03-01T12:05:00.000Z")
       "QR_003_HASH_GHI789" "TI" "Sala Técnica" initialState)
  = conferirMaterial (fun _ => "2024-03-01T12:05:00.000Z")
      "QR_003_HASH_GHI789" "TI" "Sala Técnica"
      (conferirMaterial (fun _ => "2024-03-01T12:00:00.000Z")
         "QR_001_HASH_ABC123" "TI" "Escritório TI" initialState).
Proof.
  apply conferirMaterial_commute. discriminate.
Defined.

(** ** The statistics of the dashboard *)

Lemma count_status_app (s : Status) (l1 l2 : list Material) :
  Dashboard.count_status s (l1 ++ l2)
  = Dashboard.count_status s l1 + Dashboard.count_status s l2.
Proof.
  unfold Dashboard.count_status. by rewrite List.filter_app, length_app.
Qed.

(** X9: the three counters of the dashboard add up to the total: every
    material is counted once. *)
Theorem dashboard_counters_partition (state : MaterialsState) :
  Dashboard.conferidosCorretos state + Dashboard.conferidosOutroSetor state
    + Dashboard.naoConferidos state
  = Dashboard.totalMaterials state.
Proof.
  unfold Dashboard.conferidosCorretos, Dashboard.conferidosOutroSetor,
    Dashboard.naoConferidos, Dashboard.totalMaterials, Dashboard.count_status.
  induction (materials state) as [| m ms IH]; simpl; [reflexivity |].
  destruct (status m); simpl; lia.
Qed.

Lemma count_nao_conferido_conferir_map (clock : nat -> string) (k : nat)
    (qrCode0 setor0 sala0 : string) (status0 : Status) (ms : list Material) :
  status0 ≠ nao_conferido →
  (Dashboard.count_status nao_conferido (conferir_map clock k qrCode0 status0 setor0 sala0 ms)
   ≤ Dashboard.count_status nao_conferido ms)%nat.
Proof.
  intros Hne. unfold Dashboard.count_status. revert k.
  induction ms as [| m ms IH]; intros k; simpl; [lia |].
  case_eqb (qrCode m) qrCode0; simpl.
  - rewrite bool_decide_eq_false_2 by assumption.
    specialize (IH (S k)). destruct (bool_decide (status m = nao_conferido)); simpl; lia.
  - specialize (IH k). destruct (bool_decide (status m = nao_conferido)); simpl; lia.
Qed.

(** X10: how the counters move: a creation adds one to the total and to
    the not conferred, and leaves the two other counters; a conference
    keeps the total and never raises the number of not conferred. *)
Theorem dashboard_counters_step (env : AddEnv) (materialData : MaterialData)
    (clock : nat -> string) (qrCode0 setor0 sala0 : string) (state : MaterialsState) :
  Dashboard.totalMaterials (addMaterial env materialData state)
    = S (Dashboard.totalMaterials state)
  ∧ Dashboard.naoConferidos (addMaterial env materialData state)
    = S (Dashboard.naoConferidos state)
  ∧ Dashboard.conferidosCorretos (addMaterial env materialData state)
    = Dashboard.conferidosCorretos state
  ∧ Dashboard.conferidosOutroSetor (addMaterial env materialData state)
    = Dashboard.conferidosOutroSetor state
  ∧ Dashboard.totalMaterials (conferirMaterial clock qrCode0 setor0 sala0 state)
    = Dashboard.totalMaterials state
  ∧ (Dashboard.naoConferidos (conferirMaterial clock qrCode0 setor0 sala0 state)
     ≤ Dashboard.naoConferidos state)%nat.
Proof.
  unfold Dashboard.totalMaterials, Dashboard.naoConferidos,
    Dashboard.conferidosCorretos, Dashboard.conferidosOutroSetor.
  split; [simpl; rewrite length_app; simpl; lia |].
  do 3 (split;
    [ simpl; rewrite count_status_app;
      unfold Dashboard.count_status at 2; simpl;
      rewrite ?bool_decide_eq_true_2 by reflexivity;
      rewrite ?bool_decide_eq_false_2 by discriminate;
      simpl; lia |]).
  unfold conferirMaterial.
  destruct (List.find _ (materials state)) as [material |]; simpl.
  - split; [apply conferir_map_length |].
    apply count_nao_conferido_conferir_map.
    by destruct (String.eqb (setor material) setor0 && String.eqb (sala material) sala0).
  - split; [reflexivity | lia].
Qed.

(** ** The session and the pages that read it *)

(** X11: after any sequence of logins and logouts from the initial
    session, the delete button of the table is rendered exactly when the
    session is authenticated: the stored user and the flag go together,
    and the role test never hides the button from a logged-in user; a
    logout always ends in the initial session. *)
Theorem showDelete_follows_session (cs : list Auth.Call) :
  MateriaisTable.showDelete (Auth.user (Auth.calls cs Auth.initialState))
    = Auth.isAuthenticated (Auth.calls cs Auth.initialState)
  ∧ (Auth.isAuthenticated (Auth.calls cs Auth.initialState) = true
       ↔ is_Some (Auth.user (Auth.calls cs Auth.initialState)))
  ∧ Auth.calls (cs ++ [Auth.CallLogout]) Auth.initialState = Auth.initialState.
Proof.
  split; [| split].
  - destruct (calls_stored_user cs) as [-> | ->]; reflexivity.
  - destruct (calls_stored_user cs) as [-> | ->]; simpl.
    + split; [discriminate | by intros [u Hu]].
    + split; [by eexists | reflexivity].
  - unfold Auth.calls. by rewrite fold_left_app.
Qed.

(** X12: [handleSubmit] of the login page shows one toast, the success
    one exactly when the credentials are the accepted pair; it leaves the
    session as [login] leaves it (unchanged on a refusal) and ends with
    [loading] off. *)
Theorem handleSubmit_one_toast (page : LoginPage.PageState)
    (auth : Auth.AuthState) :
  ∃ t,
    LoginPage.handleSubmit page auth
      = ({| LoginPage.credentials := LoginPage.credentials page;
            LoginPage.loading := false |},
         fst (Auth.login (LoginPage.credentials page) auth),
         [t])
    ∧ (variant t = variant_default
         ↔ Auth.cred_login (LoginPage.credentials page) = "admin"
           ∧ Auth.senha (LoginPage.credentials page) = "123456")
    ∧ (variant t = variant_destructive →
         fst (Auth.login (LoginPage.credentials page) auth) = auth).
Proof.
  unfold LoginPage.handleSubmit, Auth.login.
  pose proof (accepted_iff (LoginPage.credentials page)) as Hacc.
  destruct (Auth.accepted (LoginPage.credentials page)); simpl;
    eexists; (split; [reflexivity |]); simpl.
  - split; [tauto | discriminate].
  - split; [| reflexivity]. split; [discriminate |].
    intros H. apply Hacc in H. discriminate.
Qed.

(** ** The sector directory *)

(** X13: [getSalasDoSetor] gives the rooms of the first sector of the
    directory that has the name, and no room for a name that no sector
    has. *)
Theorem getSalasDoSetor_first_match (setores0 : list Setor.t) (setor0 : string) :
  ((∀ s, s ∈ setores0 → Setor.nome s ≠ setor0) →
     getSalasDoSetor setores0 setor0 = [])
  ∧ (∀ k s,
       setores0 !! k = Some s → Setor.nome s = setor0 →
       (∀ j s', j < k → setores0 !! j = Some s' → Setor.nome s' ≠ setor0) →
       getSalasDoSetor setores0 setor0 = Setor.salas s).
Proof.
  unfold getSalasDoSetor. split.
  - induction setores0 as [| s0 ss IH]; intros Hno; simpl; [reflexivity |].
    case_eqb (Setor.nome s0) setor0.
    + exfalso. apply (Hno s0); [left | assumption].
    + apply IH. intros s Hin. apply Hno. by right.
  - induction setores0 as [| s0 ss IH]; intros k s Hk Hname Hbefore; [discriminate |].
    simpl. destruct k as [| k]; simpl in Hk.
    + injection Hk as ->. by rewrite Hname, String.eqb_refl.
    + case_eqb (Setor.nome s0) setor0.
      * exfalso. apply (Hbefore 0 s0); [lia | reflexivity | assumption].
      * apply (IH k); [assumption | assumption |].
        intros j s' Hj Hs'. apply (Hbefore (S j) s'); [lia | assumption].
Qed.

Lemma getSalasDoSetor_first_match_witness :
  getSalasDoSetor mockSetores "Almoxarifado" = []
  ∧ getSalasDoSetor mockSetores "TI"
    = ["Sala Servidores"; "Sala Técnica"; "Escritório TI"].
Proof.
  split.
  - apply (proj1 (getSalasDoSetor_first_match mockSetores "Almoxarifado")).
    intros s Hs. unfold mockSetores in Hs.
    repeat (apply elem_of_cons in Hs as [-> | Hs]); simpl;
      first [ discriminate | by apply elem_of_nil in Hs ].
  - apply (proj2 (getSalasDoSetor_first_match mockSetores "TI") 2
             (Setor.mk "3" "TI" ["Sala Servidores"; "Sala Técnica"; "Escritório TI"])
             eq_refl eq_refl).
    intros [| [| j]] s' Hj Hs'; simpl in Hs';
      [ injection Hs' as <-; discriminate
      | injection Hs' as <-; discriminate
      | lia ].
Defined.

(** ** The page of the sectors *)

Lemma falsy_iff (s : string) : MateriaisPage.falsy s = true ↔ s = EmptyString.
Proof. unfold MateriaisPage.falsy. apply String.eqb_eq. Qed.

(** X14: the rows of the page of the sectors.  Without a selected sector
    there is no row.  With a sector, a material of the registry is a row
    exactly when its [setor] is the selected one and, if a room other
    than "all" is selected, its [sala] is that room; the rows keep the
    order of the registry. *)
Theorem setores_filteredMaterials_rows (page : SetoresPage.PageState)
    (ms : list Material) :
  (SetoresPage.selectedSetor page = EmptyString →
     SetoresPage.filteredMaterials page ms = [])
  ∧ (SetoresPage.selectedSetor page ≠ EmptyString →
     ∀ m, m ∈ SetoresPage.filteredMaterials page ms
          ↔ m ∈ ms
            ∧ setor m = SetoresPage.selectedSetor page
            ∧ (SetoresPage.selectedSala page = EmptyString
               ∨ SetoresPage.selectedSala page = "all"
               ∨ sala m = SetoresPage.selectedSala page))
  ∧ sublist (SetoresPage.filteredMaterials page ms) ms.
Proof.
  unfold SetoresPage.filteredMaterials, SetoresPage.in_selected_place,
    MateriaisPage.falsy.
  split; [| split].
  - intros ->. simpl. induction ms as [| m ms IH]; simpl; auto.
  - intros Hsetor m. rewrite !list_elem_of_In, filter_In.
    apply String.eqb_neq in Hsetor. rewrite Hsetor.
    case_eqb (SetoresPage.selectedSala page) EmptyString;
      case_eqb (SetoresPage.selectedSala page) "all"; simpl;
      rewrite ?andb_true_iff, !String.eqb_eq; tauto.
  - apply filter_sublist.
Qed.

Lemma setores_filteredMaterials_rows_witness :
  SetoresPage.filteredMaterials (SetoresPage.mkPage EmptyString "Sala RH") mockMaterials
  = [].
Proof.
  apply (proj1 (setores_filteredMaterials_rows
                  (SetoresPage.mkPage EmptyString "Sala RH") mockMaterials)).
  reflexivity.
Defined.


(** ** The page of the scanner *)

(** X16: [startScanning] without a sector or without a room changes
    nothing and shows the error toast, whatever the camera answers; this
    is the case right after a sector is chosen, since that empties the
    room. *)
Theorem startScanning_needs_place (camera video : bool) (value : string)
    (page : QRScanner.PageState) :
  (QRScanner.selectedSetor page = EmptyString
   ∨ QRScanner.selectedSala page = EmptyString →
   QRScanner.startScanning camera video page = (page, [QRScanner.toast_select_place]))
  ∧ QRScanner.startScanning camera video (QRScanner.changeSetor value page)
    = (QRScanner.changeSetor value page, [QRScanner.toast_select_place]).
Proof.
  unfold QRScanner.startScanning, MateriaisPage.falsy. split.
  - intros [-> | ->]; simpl; [reflexivity |].
    by rewrite orb_true_r.
  - simpl. by rewrite orb_true_r.
Qed.

Lemma startScanning_needs_place_witness :
  QRScanner.startScanning true true
    (QRScanner.mkPage "TI" EmptyString false None false)
  = (QRScanner.mkPage "TI" EmptyString false None false, [QRScanner.toast_select_place]).
Proof.
  apply (proj1 (startScanning_needs_place true true EmptyString
                  (QRScanner.mkPage "TI" EmptyString false None false))).
  right. reflexivity.
Defined.

(** X17: [startScanning] sets [isScanning] only if [videoRef.current] is
    set, and the [video] element is rendered only while [isScanning]
    holds.  So from the page as it is first shown, no sequence of
    choices of place, of presses of the start button and of
    [stopScanning] turns the scanner on or keeps a stream. *)
Theorem scanner_never_starts (es : list QRScanner.Event) :
  QRScanner.isScanning (QRScanner.handle_all es QRScanner.initialPage) = false
  ∧ QRScanner.streamRef (QRScanner.handle_all es QRScanner.initialPage) = false.
Proof.
  unfold QRScanner.handle_all. rewrite <- (rev_involutive es).
  induction (rev es) as [| e es' IH]; simpl; [by split |].
  rewrite fold_left_app. simpl.
  destruct IH as [Hscan Hstream].
  destruct e as [value | value | camera |]; simpl; try by split.
  unfold QRScanner.startScanning, QRScanner.videoRef_current.
  rewrite Hscan.
  destruct (MateriaisPage.falsy _ || MateriaisPage.falsy _); simpl; [by split |].
  destruct camera; simpl; by split.
Qed.

(** X18: [handleQRCodeDetected] passes the selected place to the store,
    shows the toast "QR Code Lido!" and ends with the scanner stopped and
    no scan result kept (the [setScanResult(null)] of [stopScanning]
    comes after the [setScanResult] of the handler).  When no material
    has the scanned code, the registry is unchanged and the same toast is
    shown. *)
Theorem handleQRCodeDetected_outcome (clock : nat -> string)
    (timestamp qrCodeData : string) (page : QRScanner.PageState)
    (store : MaterialsState) :
  (∃ t,
     QRScanner.handleQRCodeDetected clock timestamp qrCodeData page store
       = ({| QRScanner.selectedSetor := QRScanner.selectedSetor page;
             QRScanner.selectedSala := QRScanner.selectedSala page;
             QRScanner.isScanning := false;
             QRScanner.scanResult := None;
             QRScanner.streamRef := false |},
          conferirMaterial clock qrCodeData
            (QRScanner.selectedSetor page) (QRScanner.selectedSala page) store,
          [t])
     ∧ title t = "QR Code Lido!" ∧ variant t = variant_default)
  ∧ ((∀ m, m ∈ materials store → qrCode m ≠ qrCodeData) →
       snd (fst (QRScanner.handleQRCodeDetected clock timestamp qrCodeData page store))
         = store).
Proof.
  split.
  - eexists. split; [reflexivity |]. by split.
  - intros Hno. simpl. unfold conferirMaterial.
    by rewrite (find_qrCode_None _ _ Hno).
Qed.

Lemma handleQRCodeDetected_outcome_witness :
  snd (fst (QRScanner.handleQRCodeDetected (fun _ => "2024-03-01T12:00:00.000Z")
              "2024-03-01T12:00:00.001Z" "QR_404_HASH_XXXXXX"
              (QRScanner.mkPage "TI" "Sala Técnica" true None true)
              initialState))
  = initialState.
Proof.
  apply (proj2 (handleQRCodeDetected_outcome _ _ _ _ _)).
  apply Forall_forall. apply (bool_decide_unpack _). vm_compute. exact I.
Defined.

(** ** The form of the page of the materials *)

(** X19: [handleUpdateMaterial] changes neither the registry nor the page
    when no material is being edited or when [nome], [bmp], [setor] or
    [sala] of the form is empty. *)
Theorem handleUpdateMaterial_validates (page : MateriaisPage.PageState)
    (store : MaterialsState) :
  MateriaisPage.editingMaterial page = None
  ∨ MateriaisPage.f_nome (MateriaisPage.newMaterial page) = EmptyString
  ∨ MateriaisPage.f_bmp (MateriaisPage.newMaterial page) = EmptyString
  ∨ MateriaisPage.f_setor (MateriaisPage.newMaterial page) = EmptyString
  ∨ MateriaisPage.f_sala (MateriaisPage.newMaterial page) = EmptyString →
  MateriaisPage.handleUpdateMaterial page store = (page, store).
Proof.
  unfold MateriaisPage.handleUpdateMaterial, MateriaisPage.missing_required,
    MateriaisPage.falsy.
  destruct (MateriaisPage.editingMaterial page) as [editing |]; [| reflexivity].
  intros [Hnone | [-> | [-> | [-> | ->]]]]; [discriminate | | | |]; simpl;
    rewrite ?orb_true_r; reflexivity.
Qed.

Lemma handleUpdateMaterial_validates_witness :
  MateriaisPage.handleUpdateMaterial
    (MateriaisPage.mkPage
       (MateriaisPage.mkForm "Impressora" "BMP003" "RH" EmptyString "Carlos")
       false (mockMaterials !! 2))
    initialState
  = (MateriaisPage.mkPage
       (MateriaisPage.mkForm "Impressora" "BMP003" "RH" EmptyString "Carlos")
       false (mockMaterials !! 2),
     initialState).
Proof.
  apply handleUpdateMaterial_validates.
  do 4 right. reflexivity.
Defined.

(** X20: whatever the form holds, [handleUpdateMaterial] leaves every
    material at its position with its [id], [qrCode], [dataCadastro],
    [status] and [ultimaConferencia]: an edit through the page does not
    re-evaluate the status against the new place. *)
Theorem handleUpdateMaterial_keeps_conference (page : MateriaisPage.PageState)
    (store : MaterialsState) (i : nat) (m : Material) :
  materials store !! i = Some m →
  ∃ m',
    materials (snd (MateriaisPage.handleUpdateMaterial page store)) !! i = Some m'
    ∧ id m' = id m
    ∧ qrCode m' = qrCode m
    ∧ dataCadastro m' = dataCadastro m
    ∧ status m' = status m
    ∧ ultimaConferencia m' = ultimaConferencia m.
Proof.
  intros Hi. unfold MateriaisPage.handleUpdateMaterial.
  destruct (MateriaisPage.editingMaterial page) as [editing |];
    [| exists m; by repeat split].
  destruct (MateriaisPage.missing_required _); [exists m; by repeat split |].
  simpl snd. rewrite updateMaterial_lookup, Hi. simpl.
  eexists. split; [reflexivity |].
  destruct (String.eqb (id m) (id editing)); by repeat split.
Qed.

Lemma handleUpdateMaterial_keeps_conference_witness :
  ∃ m',
    materials
      (snd (MateriaisPage.handleUpdateMaterial
              (MateriaisPage.mkPage
                 (MateriaisPage.mkForm "Computador" "BMP001" "RH" "Arquivo" "João")
                 false (mockMaterials !! 0))
              initialState)) !! 0 = Some m'
    ∧ setor m' = "RH"
    ∧ status m' = conferido_correto.
Proof.
  destruct (handleUpdateMaterial_keeps_conference
              (MateriaisPage.mkPage
                 (MateriaisPage.mkForm "Computador" "BMP001" "RH" "Arquivo" "João")
                 false (mockMaterials !! 0))
              initialState 0
              (mkMaterial "1" "Computador Desktop Dell" "BMP001" "TI" "Escritório TI"
                 "João Silva" "QR_001_HASH_ABC123" conferido_correto
                 (Some (mkConferencia "2024-01-15T10:30:00Z" "TI" "Escritório TI"))
                 "2024-01-01T08:00:00Z")
              eq_refl)
    as (m' & Hlookup & _ & _ & _ & Hstatus & _).
  exists m'. split; [exact Hlookup |].
  split; [| exact Hstatus].
  vm_compute in Hlookup. injection Hlookup as <-. reflexivity.
Defined.

Lemma merge_own_fields (m : Material) :
  merge m
    (MateriaisPage.form_updates
       (MateriaisPage.newMaterial
          (MateriaisPage.handleEditMaterial m
             (MateriaisPage.mkPage MateriaisPage.emptyForm false None))))
  = m.
Proof. by destruct m. Qed.

(** X21: opening a material for edition and saving the form as it was
    filled leaves the registry as it was, clears the form and ends the
    edition, when the four required fields of the material are not empty
    and the materials of the registry with its [id] are that material. *)
Theorem edit_then_save_unchanged (m : Material)
    (page : MateriaisPage.PageState) (store : MaterialsState) :
  nome m ≠ EmptyString → bmp m ≠ EmptyString →
  setor m ≠ EmptyString → sala m ≠ EmptyString →
  (∀ m', m' ∈ materials store → id m' = id m → m' = m) →
  MateriaisPage.handleUpdateMaterial (MateriaisPage.handleEditMaterial m page) store
  = ({| MateriaisPage.newMaterial := MateriaisPage.emptyForm;
        MateriaisPage.isAddDialogOpen := MateriaisPage.isAddDialogOpen page;
        MateriaisPage.editingMaterial := None |},
     store).
Proof.
  intros Hn Hb Hs Hr Hsame.
  unfold MateriaisPage.handleUpdateMaterial, MateriaisPage.missing_required,
    MateriaisPage.falsy; simpl.
  apply String.eqb_neq in Hn, Hb, Hs, Hr. rewrite Hn, Hb, Hs, Hr. simpl.
  f_equal. destruct store as [ms ss ld].
  unfold updateMaterial, set_materials; simpl in *. f_equal.
  induction ms as [| m0 ms IH]; simpl; [reflexivity |].
  rewrite IH by (intros m' Hin; apply Hsame; by right). f_equal.
  case_eqb (id m0) (id m); [| reflexivity].
  rewrite (Hsame m0) by (by left || assumption).
  apply (merge_own_fields m).
Qed.

Lemma edit_then_save_unchanged_witness :
  MateriaisPage.handleUpdateMaterial
    (MateriaisPage.handleEditMaterial
       (mkMaterial "3" "Impressora HP LaserJet" "BMP003" "RH" "Sala RH"
          "Carlos Oliveira" "QR_003_HASH_GHI789" nao_conferido None
          "2024-01-03T14:20:00Z")
       (MateriaisPage.mkPage MateriaisPage.emptyForm true None))
    initialState
  = (MateriaisPage.mkPage MateriaisPage.emptyForm true None, initialState).
Proof.
  apply (edit_then_save_unchanged
           (mkMaterial "3" "Impressora HP LaserJet" "BMP003" "RH" "Sala RH"
              "Carlos Oliveira" "QR_003_HASH_GHI789" nao_conferido None
              "2024-01-03T14:20:00Z")
           (MateriaisPage.mkPage MateriaisPage.emptyForm true None)
           initialState);
    try discriminate.
  intros m' Hm'. unfold initialState, mockMaterials in Hm'. simpl in Hm'.
  repeat (apply elem_of_cons in Hm' as [-> | Hm']); simpl;
    first [ discriminate | reflexivity | by apply elem_of_nil in Hm' ].
Defined.

(** X22: choosing a sector in the form empties the room, so a submission
    right after it adds nothing, whatever the other fields hold. *)
Theorem changeSetor_then_add_refused (env : AddEnv) (value : string)
    (page : MateriaisPage.PageState) (store : MaterialsState) :
  MateriaisPage.f_sala
    (MateriaisPage.newMaterial (MateriaisPage.changeSetor value page)) = EmptyString
  ∧ MateriaisPage.handleAddMaterial env (MateriaisPage.changeSetor value page) store
    = (MateriaisPage.changeSetor value page, store).
Proof.
  split; [reflexivity |].
  unfold MateriaisPage.handleAddMaterial, MateriaisPage.missing_required; simpl.
  by rewrite !orb_true_r.
Qed.

(** ** The search of the table *)

Lemma includes_empty (s : string) : MateriaisPage.includes s EmptyString = true.
Proof. by destruct s. Qed.

(** X23: the rows of the table are materials of the registry, in its
    order; with a status filter other than "all" every row has the status
    that the filter names, and a filter that names no status gives no
    row.  This holds whatever [toLowerCase] does. *)
Theorem filteredMaterials_status (toLowerCase : string -> string)
    (searchTerm filterStatus : string) (ms : list Material) :
  sublist (MateriaisPage.filteredMaterials toLowerCase searchTerm filterStatus ms) ms
  ∧ (filterStatus ≠ "all" →
       ∀ m, m ∈ MateriaisPage.filteredMaterials toLowerCase searchTerm filterStatus ms →
            MateriaisPage.status_string (status m) = filterStatus)
  ∧ (filterStatus ≠ "all" →
       (∀ s, MateriaisPage.status_string s ≠ filterStatus) →
       MateriaisPage.filteredMaterials toLowerCase searchTerm filterStatus ms = []).
Proof.
  unfold MateriaisPage.filteredMaterials, MateriaisPage.matchesStatus.
  split; [apply filter_sublist |]. split.
  - intros Hall m. rewrite list_elem_of_In, filter_In.
    apply String.eqb_neq in Hall. rewrite Hall. simpl.
    rewrite andb_true_iff, String.eqb_eq. tauto.
  - intros Hall Hnone. apply String.eqb_neq in Hall. rewrite Hall. simpl.
    induction ms as [| m ms IH]; simpl; [reflexivity |].
    pose proof (Hnone (status m)) as Hm. apply String.eqb_neq in Hm.
    rewrite Hm, andb_false_r. exact IH.
Qed.

Lemma filteredMaterials_status_witness :
  MateriaisPage.filteredMaterials (fun s => s) "HP" "conferido" mockMaterials = [].
Proof.
  apply (proj2 (proj2 (filteredMaterials_status (fun s => s) "HP" "conferido"
                         mockMaterials))).
  - discriminate.
  - intros [ | | ]; discriminate.
Defined.

(** X24: with an empty search term and the filter "all" the table shows
    the whole registry, provided the lower case of the empty string is
    the empty string. *)
Theorem filteredMaterials_no_filter (toLowerCase : string -> string)
    (ms : list Material) :
  toLowerCase EmptyString = EmptyString →
  MateriaisPage.filteredMaterials toLowerCase EmptyString "all" ms = ms.
Proof.
  intros Hlower. unfold MateriaisPage.filteredMaterials.
  apply filter_all. intros m _.
  unfold MateriaisPage.matchesSearch, MateriaisPage.matchesStatus.
  by rewrite Hlower, includes_empty.
Qed.

Lemma filteredMaterials_no_filter_witness :
  MateriaisPage.filteredMaterials (fun s => s) EmptyString "all" mockMaterials
  = mockMaterials.
Proof.
  apply (filteredMaterials_no_filter (fun s => s)). reflexivity.
Defined.
